(** * elastag: values stored under configurations, retrieved by specificity

    A shallow embedding of [elastag.py] (class [ElasTag]) and of its older
    sibling [elasconf.py] (class [ElasConf]), followed by the properties of
    the store that hold on the code and the inputs at which others break.

    Both classes subclass Python's [dict].  The embedding keeps three things
    of the Python object model that the methods depend on:

    - a dict iterates its keys in an order that is part of its state, so the
      dict is the sequence of its entries in iteration order;
    - lists and sets are mutable objects reached through references, so the
      state carries a heap, and [prev.append(val)] / [prev.add(val)] update
      the object in place;
    - building a set hashes its elements, and lists and sets are unhashable
      ([TypeError]). *)

From Stdlib Require OrderedTypeEx.
From stdpp Require Import gmap strings list sorting fin_maps.

(** ** Python values and objects *)

Definition loc := positive.

(** A value is an immutable string or a reference to a mutable object. *)
Inductive value :=
  | Str (s : string)
  | Ref (l : loc).

(** The mutable objects the store creates and inspects with [isinstance]:
    [list] and [set].  A set holds hashable values only, which among the
    values above are the strings. *)
Inductive object :=
  | PyList (xs : list value)
  | PySet (s : gset string).

Abbreviation heap := (gmap loc object).

(** A configuration as the caller passes it: a dict from attribute names to
    attribute values. *)
Abbreviation configuration := (gmap string string).

(** A stored key: the tuple of pairs built by [__confid]. *)
Definition ConfigKey := list (string * string).

(** The exceptions the methods can raise. [KeyError_no_match key] is the
    [KeyError('%s does not match an existing configuration' % str(key))] of
    [__getitem__]; [KeyError_dict k] is the one of [dict.__getitem__];
    [TypeError_unhashable] is raised when a list or a set is hashed. *)
Inductive exn :=
  | KeyError_no_match (key : configuration)
  | KeyError_dict (k : ConfigKey)
  | TypeError_unhashable.

Inductive result (A : Type) :=
  | Ok (a : A)
  | Raise (e : exn).
Arguments Ok {A} a.
Arguments Raise {A} e.

(** ** The builtins the methods call *)

(** [sorted]: a stable sort; [x] is placed before the first element it is
    not greater than, so equal elements keep their original order. *)
Fixpoint insert_sorted {A} (le : A → A → bool) (x : A) (l : list A) : list A :=
  match l with
  | [] => [x]
  | y :: l' => if le x y then x :: l else y :: insert_sorted le x l'
  end.

Definition sorted_by {A} (le : A → A → bool) (l : list A) : list A :=
  foldr (insert_sorted le) [] l.

(** [sorted(names)] on strings. *)
Definition sorted_str (l : list string) : list string :=
  sorted_by String.leb l.

(** [sorted(keys, key=len, reverse=True)]: longest first; with [reverse]
    Python still keeps equal elements in their original order. *)
Definition sorted_len_reverse (l : list ConfigKey) : list ConfigKey :=
  sorted_by (λ c1 c2, Nat.leb (length c2) (length c1)) l.

(** [set(t)] for a tuple of pairs. *)
Definition pairs (c : ConfigKey) : gset (string * string) := list_to_set c.

(** [set(xs)] for a list of values: every element is hashed. *)
Fixpoint set_of_values (xs : list value) : result (gset string) :=
  match xs with
  | [] => Ok ∅
  | Str s :: xs' =>
      match set_of_values xs' with
      | Ok r => Ok ({[s]} ∪ r)
      | Raise e => Raise e
      end
  | Ref _ :: _ => Raise TypeError_unhashable
  end.

(** *** [dict], with its entries in iteration order

    A new key is entered at the end, as Python 3.7 and later do; Python 2
    places it by its hash.  Nothing stated below depends on the place: the
    statements quantify over every sequence of entries. *)

Definition dict := list (ConfigKey * value).

Definition dict_keys (d : dict) : list ConfigKey := d.*1.

Fixpoint dict_getitem (k : ConfigKey) (d : dict) : option value :=
  match d with
  | [] => None
  | (k', v) :: d' => if decide (k' = k) then Some v else dict_getitem k d'
  end.

Definition dict_contains (k : ConfigKey) (d : dict) : bool :=
  bool_decide (k ∈ dict_keys d).

Fixpoint dict_setitem (k : ConfigKey) (v : value) (d : dict) : dict :=
  match d with
  | [] => [(k, v)]
  | (k', v') :: d' =>
      if decide (k' = k) then (k', v) :: d' else (k', v') :: dict_setitem k v d'
  end.

(** *** The state: the store's own dict and the heap of objects *)

Record state := State { entries : dict; objects : heap }.

Definition alloc (o : object) (h : heap) : loc * heap :=
  let l := fresh (dom h) in (l, <[l := o]> h).

(** [isinstance(v, list)], with the object's location and elements. *)
Definition as_list (h : heap) (v : value) : option (loc * list value) :=
  match v with
  | Ref l => match h !! l with Some (PyList xs) => Some (l, xs) | _ => None end
  | Str _ => None
  end.

(** [isinstance(v, set)], with the object's location and elements. *)
Definition as_set (h : heap) (v : value) : option (loc * gset string) :=
  match v with
  | Ref l => match h !! l with Some (PySet s) => Some (l, s) | _ => None end
  | Str _ => None
  end.

(** ** class ElasTag(dict) *)

Module ElasTag.

(** [tuple([(k, kw[k]) for k in sorted(kw.keys())])] *)
Definition __confid (kw : configuration) : ConfigKey :=
  omap (λ k, pair k <$> kw !! k) (sorted_str (map_to_list kw).*1).

(** The first key, longest first, whose pairs are all in the query. *)
Definition __translate_key (key : configuration) (st : state)
  : option ConfigKey :=
  let config := pairs (__confid key) in
  snd <$> list_find (λ c, pairs c ⊆ config)
                    (sorted_len_reverse (dict_keys (entries st))).

Definition __getitem__ (key : configuration) (st : state)
  : result value * state :=
  match __translate_key key st with
  | Some k =>
      match dict_getitem k (entries st) with
      | Some v => (Ok v, st)
      | None => (Raise (KeyError_dict k), st)
      end
  | None => (Raise (KeyError_no_match key), st)
  end.

Definition __setitem__ (key : configuration) (val : value) (st : state)
  : state :=
  State (dict_setitem (__confid key) val (entries st)) (objects st).

(** [__contains__] hands back what [__translate_key] returned: a tuple or
    [None]. *)
Definition __contains__ (key : configuration) (st : state)
  : option ConfigKey :=
  __translate_key key st.

(** [key in el]: the interpreter takes the truth value of the result of
    [__contains__]; [None] is false and a tuple is true when it is not
    empty. *)
Definition truth_value (r : option ConfigKey) : bool :=
  match r with
  | None => false
  | Some c => negb (Nat.eqb (length c) 0)
  end.

Definition operator_in (key : configuration) (st : state) : bool :=
  truth_value (__contains__ key st).

Definition haskey (key : configuration) (st : state) : bool :=
  dict_contains (__confid key) (entries st).

Definition append (key : configuration) (val : value) (st : state)
  : result value * state :=
  let config := __confid key in
  if dict_contains config (entries st) then
    match dict_getitem config (entries st) with
    | None => (Raise (KeyError_dict config), st)
    | Some prev =>
        match as_list (objects st) prev with
        | Some (l, xs) =>
            (* prev.append(val); return prev *)
            (Ok prev,
             State (entries st) (<[l := PyList (xs ++ [val])]> (objects st)))
        | None =>
            let '(l1, h1) := alloc (PyList [prev; val]) (objects st) in
            let d1 := dict_setitem config (Ref l1) (entries st) in
            let '(l2, h2) := alloc (PyList [prev; val]) h1 in
            (Ok (Ref l2), State d1 h2)
        end
    end
  else
    let '(l1, h1) := alloc (PyList [val]) (objects st) in
    let d1 := dict_setitem config (Ref l1) (entries st) in
    let '(l2, h2) := alloc (PyList [val]) h1 in
    (Ok (Ref l2), State d1 h2).

(** [set(xs)] as a new object. *)
Definition new_set (xs : list value) (h : heap) : result (loc * heap) :=
  match set_of_values xs with
  | Ok s => Ok (alloc (PySet s) h)
  | Raise e => Raise e
  end.

Definition add (key : configuration) (val : value) (st : state)
  : result value * state :=
  let config := __confid key in
  if dict_contains config (entries st) then
    match dict_getitem config (entries st) with
    | None => (Raise (KeyError_dict config), st)
    | Some prev =>
        match as_set (objects st) prev with
        | Some (l, s) =>
            (* prev.add(val); return prev *)
            match val with
            | Str x =>
                (Ok prev,
                 State (entries st) (<[l := PySet (s ∪ {[x]})]> (objects st)))
            | Ref _ => (Raise TypeError_unhashable, st)
            end
        | None =>
            match new_set [prev; val] (objects st) with
            | Raise e => (Raise e, st)
            | Ok (l1, h1) =>
                let d1 := dict_setitem config (Ref l1) (entries st) in
                match new_set [prev; val] h1 with
                | Raise e => (Raise e, State d1 h1)
                | Ok (l2, h2) => (Ok (Ref l2), State d1 h2)
                end
            end
        end
    end
  else
    match new_set [val] (objects st) with
    | Raise e => (Raise e, st)
    | Ok (l1, h1) =>
        let d1 := dict_setitem config (Ref l1) (entries st) in
        match new_set [val] h1 with
        | Raise e => (Raise e, State d1 h1)
        | Ok (l2, h2) => (Ok (Ref l2), State d1 h2)
        end
    end.

(** The body of the loop of [all] when [as_set] is false: [out] is a
    list. *)
Definition all_list_step (config : gset (string * string)) (st : state)
    (out : result (list value)) (c : ConfigKey) : result (list value) :=
  match out with
  | Raise e => Raise e
  | Ok out =>
      if bool_decide (config ⊆ pairs c) then
        match dict_getitem c (entries st) with
        | None => Raise (KeyError_dict c)
        | Some val =>
            match as_list (objects st) val with
            | Some (_, xs) => Ok (out ++ xs)        (* out += val *)
            | None => Ok (out ++ [val])             (* out.append(val) *)
            end
        end
      else Ok out
  end.

(** The body of the loop of [all] when [as_set] is true: [out] is a set. *)
Definition all_set_step (config : gset (string * string)) (st : state)
    (out : result (gset string)) (c : ConfigKey) : result (gset string) :=
  match out with
  | Raise e => Raise e
  | Ok out =>
      if bool_decide (config ⊆ pairs c) then
        match dict_getitem c (entries st) with
        | None => Raise (KeyError_dict c)
        | Some val =>
            match as_set (objects st) val with
            | Some (_, s) => Ok (out ∪ s)            (* out |= val *)
            | None =>
                match as_list (objects st) val with
                | Some (_, xs) =>                    (* out |= set(val) *)
                    match set_of_values xs with
                    | Ok s => Ok (out ∪ s)
                    | Raise e => Raise e
                    end
                | None =>                            (* out.add(val) *)
                    match val with
                    | Str x => Ok (out ∪ {[x]})
                    | Ref _ => Raise TypeError_unhashable
                    end
                end
            end
        end
      else Ok out
  end.

(** [all(key=None, as_set=False)].  [as_set] does not change during the
    call, so the loop is written once for each of its values; [out] is
    a new object, entered in the heap when it is returned. *)
Definition all (key : option configuration) (as_set : bool) (st : state)
  : result value * state :=
  let key := default ∅ key in
  let config := pairs (__confid key) in
  if as_set then
    match foldl (all_set_step config st) (Ok ∅) (dict_keys (entries st)) with
    | Ok out =>
        let '(l, h) := alloc (PySet out) (objects st) in
        (Ok (Ref l), State (entries st) h)
    | Raise e => (Raise e, st)
    end
  else
    match foldl (all_list_step config st) (Ok []) (dict_keys (entries st)) with
    | Ok out =>
        let '(l, h) := alloc (PyList out) (objects st) in
        (Ok (Ref l), State (entries st) h)
    | Raise e => (Raise e, st)
    end.

Definition bag (key : option configuration) (st : state)
  : result value * state :=
  all key true st.

End ElasTag.

(** ** class ElasConf(dict)

    The older class repeats [__confid], [__translate_key], [__getitem__],
    [__setitem__] and [append] of [ElasTag] line for line; [__contains__] and
    [haskey] differ, and it has no [add], [all] or [bag]. *)

Module ElasConf.

Definition __confid (kw : configuration) : ConfigKey :=
  omap (λ k, pair k <$> kw !! k) (sorted_str (map_to_list kw).*1).

Definition __translate_key (key : configuration) (st : state)
  : option ConfigKey :=
  let config := pairs (__confid key) in
  snd <$> list_find (λ c, pairs c ⊆ config)
                    (sorted_len_reverse (dict_keys (entries st))).

Definition __getitem__ (key : configuration) (st : state)
  : result value * state :=
  match __translate_key key st with
  | Some k =>
      match dict_getitem k (entries st) with
      | Some v => (Ok v, st)
      | None => (Raise (KeyError_dict k), st)
      end
  | None => (Raise (KeyError_no_match key), st)
  end.

Definition __setitem__ (key : configuration) (val : value) (st : state)
  : state :=
  State (dict_setitem (__confid key) val (entries st)) (objects st).

(** [if self.__translate_key(key) is not None: return True] *)
Definition __contains__ (key : configuration) (st : state) : bool :=
  match __translate_key key st with
  | Some _ => true
  | None => false
  end.

Definition operator_in (key : configuration) (st : state) : bool :=
  __contains__ key st.

(** [return key in self] *)
Definition haskey (key : configuration) (st : state) : bool :=
  operator_in key st.

Definition append (key : configuration) (val : value) (st : state)
  : result value * state :=
  let config := __confid key in
  if dict_contains config (entries st) then
    match dict_getitem config (entries st) with
    | None => (Raise (KeyError_dict config), st)
    | Some prev =>
        match as_list (objects st) prev with
        | Some (l, xs) =>
            (Ok prev,
             State (entries st) (<[l := PyList (xs ++ [val])]> (objects st)))
        | None =>
            let '(l1, h1) := alloc (PyList [prev; val]) (objects st) in
            let d1 := dict_setitem config (Ref l1) (entries st) in
            let '(l2, h2) := alloc (PyList [prev; val]) h1 in
            (Ok (Ref l2), State d1 h2)
        end
    end
  else
    let '(l1, h1) := alloc (PyList [val]) (objects st) in
    let d1 := dict_setitem config (Ref l1) (entries st) in
    let '(l2, h2) := alloc (PyList [val]) h1 in
    (Ok (Ref l2), State d1 h2).

End ElasConf.

(** ** The store as the specification sees it *)

(** The value held by an entry, by shape: the elements of the list or set
    object it refers to, or the value itself. *)
Inductive StoredValue :=
  | Single (v : value)
  | ListOf (xs : list value)
  | SetOf (s : gset string).

Definition shape (h : heap) (v : value) : StoredValue :=
  match v with
  | Str _ => Single v
  | Ref l =>
      match h !! l with
      | Some (PyList xs) => ListOf xs
      | Some (PySet s) => SetOf s
      | None => Single v
      end
  end.

Definition stored_value (st : state) (k : ConfigKey) : option StoredValue :=
  shape (objects st) <$> dict_getitem k (entries st).

(** A key is canonical when it is the tuple [__confid] builds for the
    mapping it lists.  The methods only ever insert keys built by
    [__confid], so the keys of a store are canonical. *)
Definition canonical (c : ConfigKey) : Prop :=
  c = ElasTag.__confid (list_to_map c).

Definition store_wf (st : state) : Prop :=
  Forall canonical (dict_keys (entries st)).

(** A reference points to an object; in a store, every reference held by
    an entry does. *)
Definition allocated (h : heap) (v : value) : Prop :=
  match v with
  | Str _ => True
  | Ref l => is_Some (h !! l)
  end.

Definition store_closed (st : state) : Prop :=
  Forall (λ kv, allocated (objects st) kv.2) (entries st).

(** The states a program gets to from a new store: it creates and changes
    lists and sets of its own (no object disappears), and calls the mutators
    with strings or with objects that exist. *)
Inductive built : state → Prop :=
  | built_new : built (State [] ∅)
  | built_objects st h' :
      built st → (∀ v, allocated (objects st) v → allocated h' v) →
      built (State (entries st) h')
  | built_setitem st key val :
      built st → allocated (objects st) val →
      built (ElasTag.__setitem__ key val st)
  | built_append st key val :
      built st → allocated (objects st) val →
      built (ElasTag.append key val st).2
  | built_add st key val :
      built st → built (ElasTag.add key val st).2.

(** What an entry adds to the list built by [all]: the elements of a list,
    and any other value as one element, a set included. *)
Definition contribution (st : state) (c : ConfigKey) : list value :=
  match dict_getitem c (entries st) with
  | Some val =>
      match as_list (objects st) val with
      | Some (_, xs) => xs
      | None => [val]
      end
  | None => []
  end.

(** What an entry adds to the set built by [bag]: the elements of a set,
    the elements of a list, hashed, or the value itself, hashed. *)
Definition entry_strings (st : state) (c : ConfigKey) : result (gset string) :=
  match dict_getitem c (entries st) with
  | None => Ok ∅
  | Some val =>
      match shape (objects st) val with
      | SetOf s => Ok s
      | ListOf xs => set_of_values xs
      | Single (Str x) => Ok {[x]}
      | Single (Ref _) => Raise TypeError_unhashable
      end
  end.

(** [st'] differs from [st] at most in the entry under [k] and in the
    object that entry referred to: every other key is bound as before, and
    every other object is as before. *)
Definition changes_at_most (k : ConfigKey) (st st' : state) : Prop :=
  (∀ k', k' ≠ k →
         dict_getitem k' (entries st') = dict_getitem k' (entries st)) ∧
  (∀ l o, objects st !! l = Some o →
          dict_getitem k (entries st) ≠ Some (Ref l) →
          objects st' !! l = Some o).

(** The entries under [k] and [k'] hold the same object. *)
Definition share_object (st : state) (k k' : ConfigKey) : Prop :=
  ∃ l, dict_getitem k (entries st) = Some (Ref l) ∧
       dict_getitem k' (entries st) = Some (Ref l).

(** ** The stores of the docstrings and of the examples *)

(** [ElasTag()], [ElasConf()]: no entry, no object. *)
Definition empty_store : state := State [] ∅.

Definition lang_es : configuration := {["lang" := "es"]}.
Definition lang_en : configuration := {["lang" := "en"]}.
Definition en_construction : configuration :=
  {["lang" := "en"; "sector" := "construction"]}.
Definition en_consulting : configuration :=
  {["lang" := "en"; "sector" := "consulting"]}.
Definition en_retail : configuration :=
  {["lang" := "en"; "sector" := "retail"]}.
Definition en_comp : configuration :=
  {["lang" := "en"; "company" := "comp"]}.
Definition en_comp_construction : configuration :=
  {["lang" := "en"; "company" := "comp"; "sector" := "construction"]}.

(** The store built at the top of the module's docstring. *)
Definition doc_store : state :=
  ElasTag.__setitem__ en_comp_construction (Str "en-comp-construction")
  (ElasTag.__setitem__ en_comp (Str "en-comp")
  (ElasTag.__setitem__ en_consulting (Str "en-consulting")
  (ElasTag.__setitem__ en_construction (Str "en-construction")
  (ElasTag.__setitem__ lang_en (Str "en")
  (ElasTag.__setitem__ lang_es (Str "es") empty_store))))).

(** [el[{}] = 'default'] on a new store. *)
Definition default_store : state :=
  ElasTag.__setitem__ ∅ (Str "default") empty_store.

(** [el[{'lang': 'en'}] = 'en'] on a new store. *)
Definition en_store : state :=
  ElasTag.__setitem__ lang_en (Str "en") empty_store.

(** [el.append({'lang': 'es'}, 'a')] on a new store. *)
Definition es_list_store : state :=
  (ElasTag.append lang_es (Str "a") empty_store).2.

(** [el.add({'lang': 'es'}, 'es1')] on a new store. *)
Definition es_set_store : state :=
  (ElasTag.add lang_es (Str "es1") empty_store).2.

(** [el.append({'lang': 'en'}, 'a')], then
    [l = el.append({'lang': 'en'}, 'b')], which returns the stored list,
    then [el[{'lang': 'es'}] = l]. *)
Definition shared_store : state :=
  let st1 := (ElasTag.append lang_en (Str "a") empty_store).2 in
  let res := ElasTag.append lang_en (Str "b") st1 in
  match res.1 with
  | Ok l => ElasTag.__setitem__ lang_es l res.2
  | Raise _ => res.2
  end.

(** ** Lemmas on the builtins *)

Section sorted_by.
Context {A : Type} (le : A → A → bool).

Lemma insert_sorted_Permutation x l : insert_sorted le x l ≡ₚ x :: l.
Proof.
  induction l as [|y l IH]; simpl; [done|].
  destruct (le x y); [done|].
  rewrite IH. apply Permutation_swap.
Qed.

Lemma sorted_by_Permutation l : sorted_by le l ≡ₚ l.
Proof.
  induction l as [|x l IH]; simpl; [done|].
  unfold sorted_by in *. simpl.
  by rewrite insert_sorted_Permutation, IH.
Qed.

Hypothesis le_total : ∀ x y, le x y = false → le y x = true.
Hypothesis le_trans : ∀ x y z, le x y = true → le y z = true → le x z = true.

Lemma insert_sorted_StronglySorted x l :
  StronglySorted (λ a b, le a b = true) l →
  StronglySorted (λ a b, le a b = true) (insert_sorted le x l).
Proof.
  induction 1 as [|y l Hl IH Hy]; simpl.
  { repeat constructor. }
  destruct (le x y) eqn:Hxy.
  - constructor; [by constructor|].
    constructor; [done|].
    eapply Forall_impl; [exact Hy|]. intros z Hz. by eapply le_trans.
  - constructor; [done|].
    rewrite insert_sorted_Permutation. constructor; [|done].
    by apply le_total.
Qed.

Lemma sorted_by_StronglySorted l :
  StronglySorted (λ a b, le a b = true) (sorted_by le l).
Proof.
  induction l as [|x l IH]; [constructor|].
  by apply insert_sorted_StronglySorted.
Qed.
End sorted_by.

Lemma StronglySorted_weaken {A} (R1 R2 : relation A) l :
  (∀ a b, R1 a b → R2 a b) → StronglySorted R1 l → StronglySorted R2 l.
Proof.
  intros HR. induction 1 as [|x l Hl IH Hx]; constructor; [done|].
  eapply Forall_impl; [exact Hx|]. intros y. apply HR.
Qed.

Lemma sorted_len_reverse_Permutation l : sorted_len_reverse l ≡ₚ l.
Proof. apply sorted_by_Permutation. Qed.

Lemma sorted_len_reverse_sorted l :
  StronglySorted (λ c1 c2 : ConfigKey, length c2 ≤ length c1)
                 (sorted_len_reverse l).
Proof.
  eapply (StronglySorted_weaken (λ a b, Nat.leb (length b) (length a) = true)).
  - intros a b. apply Nat.leb_le.
  - apply sorted_by_StronglySorted.
    + intros x y Hxy. apply Nat.leb_gt in Hxy. apply Nat.leb_le. lia.
    + intros x y z Hxy%Nat.leb_le Hyz%Nat.leb_le. apply Nat.leb_le. lia.
Qed.

(** In a list sorted longest first, an element at a later position is not
    longer. *)
Lemma StronglySorted_lookup_le {A} (R : relation A) l i j x y :
  StronglySorted R l → l !! i = Some x → l !! j = Some y → i < j → R x y.
Proof.
  intros Hl. revert i j. induction Hl as [|z l Hl IH Hz]; intros i j Hi Hj Hij.
  { by rewrite lookup_nil in Hi. }
  destruct j as [|j]; [lia|]. simpl in Hj.
  destruct i as [|i]; simpl in Hi.
  - simplify_eq. rewrite Forall_forall in Hz. apply Hz.
    by eapply list_elem_of_lookup_2.
  - eapply IH; [done..|lia].
Qed.

Section dict.
Implicit Types (d : dict) (k : ConfigKey) (v : value).

Lemma dict_getitem_is_Some k d :
  is_Some (dict_getitem k d) ↔ k ∈ dict_keys d.
Proof.
  unfold dict_keys. induction d as [|[k' v'] d IH]; simpl.
  - rewrite elem_of_nil. split; [by intros [? ?]|done].
  - rewrite elem_of_cons. case_decide as Hk.
    + split; [intros _; by left|intros _; by eexists].
    + rewrite IH. split; [by right|]. intros [Heq|Hin]; [|done]. by destruct Hk.
Qed.

Lemma dict_getitem_None k d : dict_getitem k d = None ↔ k ∉ dict_keys d.
Proof. by rewrite <- dict_getitem_is_Some, eq_None_not_Some. Qed.

Lemma dict_contains_true k d :
  dict_contains k d = true ↔ is_Some (dict_getitem k d).
Proof.
  unfold dict_contains. by rewrite bool_decide_eq_true, dict_getitem_is_Some.
Qed.

Lemma dict_contains_false k d :
  dict_contains k d = false ↔ dict_getitem k d = None.
Proof.
  unfold dict_contains. by rewrite bool_decide_eq_false, dict_getitem_None.
Qed.

Lemma dict_getitem_setitem_eq k v d :
  dict_getitem k (dict_setitem k v d) = Some v.
Proof.
  induction d as [|[k' v'] d IH]; simpl.
  - by rewrite decide_True.
  - case_decide; simpl.
    + by rewrite decide_True.
    + by rewrite decide_False.
Qed.

Lemma dict_getitem_setitem_ne k k' v d :
  k' ≠ k → dict_getitem k' (dict_setitem k v d) = dict_getitem k' d.
Proof.
  intros Hne. induction d as [|[k'' v''] d IH]; simpl.
  - by rewrite decide_False.
  - case_decide; simpl.
    + subst. by rewrite !decide_False.
    + case_decide; [done|]. exact IH.
Qed.

Lemma dict_getitem_elem_of k v d : dict_getitem k d = Some v → (k, v) ∈ d.
Proof.
  induction d as [|[k' v'] d IH]; simpl; [done|].
  case_decide; [intros [= ->]; subst; left|right; auto].
Qed.

Lemma dict_setitem_elem_of k v d kv :
  kv ∈ dict_setitem k v d → kv = (k, v) ∨ kv ∈ d.
Proof.
  induction d as [|[k' v'] d IH]; simpl.
  - rewrite list_elem_of_singleton. by left.
  - case_decide; subst; rewrite !elem_of_cons.
    + intros [->|Hin]; [by left|right; by right].
    + intros [->|Hin]; [right; by left|].
      destruct (IH Hin) as [->|Hd]; [by left|right; by right].
Qed.

Lemma dict_keys_setitem k k' v d :
  k' ∈ dict_keys (dict_setitem k v d) ↔ k' = k ∨ k' ∈ dict_keys d.
Proof.
  rewrite <- !dict_getitem_is_Some.
  destruct (decide (k' = k)) as [->|Hne].
  - rewrite dict_getitem_setitem_eq. split; [by left|by eexists].
  - rewrite dict_getitem_setitem_ne by done.
    split; [by right|]. by intros [Heq|Hin].
Qed.
End dict.

(** ** Canonical keys *)

Section confid.
Implicit Types (kw : configuration) (c : ConfigKey).

Lemma omap_lookup_fst kw (l : list (string * string)) :
  (∀ k v, (k, v) ∈ l → kw !! k = Some v) →
  omap (λ k, pair k <$> kw !! k) l.*1 = l.
Proof.
  induction l as [|[k v] l IH]; intros Hl; simpl; [done|].
  rewrite (Hl k v) by left. simpl. f_equal.
  apply IH. intros k' v' Hin. apply Hl. by right.
Qed.

Lemma confid_Permutation kw : ElasTag.__confid kw ≡ₚ map_to_list kw.
Proof.
  unfold ElasTag.__confid, sorted_str.
  rewrite sorted_by_Permutation.
  rewrite omap_lookup_fst; [done|].
  intros k v. apply elem_of_map_to_list.
Qed.

Lemma elem_of_confid kw k v :
  (k, v) ∈ ElasTag.__confid kw ↔ kw !! k = Some v.
Proof. by rewrite confid_Permutation, elem_of_map_to_list. Qed.

Lemma length_confid kw : length (ElasTag.__confid kw) = size kw.
Proof. by rewrite confid_Permutation, length_map_to_list. Qed.

Lemma pairs_confid_subseteq kw1 kw2 :
  pairs (ElasTag.__confid kw1) ⊆ pairs (ElasTag.__confid kw2) ↔ kw1 ⊆ kw2.
Proof.
  unfold pairs. rewrite map_subseteq_spec. split.
  - intros Hsub k v Hk. apply elem_of_confid.
    apply (elem_of_list_to_set (C := gset (string * string))).
    apply Hsub. apply elem_of_list_to_set. by apply elem_of_confid.
  - intros Hsub [k v] Hk. apply elem_of_list_to_set in Hk.
    apply elem_of_list_to_set. apply elem_of_confid.
    apply Hsub. by apply elem_of_confid.
Qed.

Lemma list_to_map_confid kw : list_to_map (ElasTag.__confid kw) = kw.
Proof.
  rewrite <- (list_to_map_to_list kw) at 2.
  apply list_to_map_proper; [|apply confid_Permutation].
  rewrite confid_Permutation. apply NoDup_fst_map_to_list.
Qed.

Lemma canonical_confid kw : canonical (ElasTag.__confid kw).
Proof. unfold canonical. by rewrite list_to_map_confid. Qed.

Lemma canonical_iff c : canonical c ↔ ∃ kw, c = ElasTag.__confid kw.
Proof.
  split.
  - intros Hc. by exists (list_to_map c).
  - intros [kw ->]. apply canonical_confid.
Qed.

Global Instance confid_inj : Inj (=) (=) ElasTag.__confid.
Proof.
  intros kw1 kw2 Heq.
  by rewrite <- (list_to_map_confid kw1), Heq, list_to_map_confid.
Qed.

(** A canonical key included in a canonical key that is not longer is
    that key. *)
Lemma canonical_subseteq_length c kw :
  canonical c →
  pairs c ⊆ pairs (ElasTag.__confid kw) →
  length (ElasTag.__confid kw) ≤ length c →
  c = ElasTag.__confid kw.
Proof.
  intros [kw' ->]%canonical_iff Hsub%pairs_confid_subseteq Hlen.
  rewrite !length_confid in Hlen.
  by rewrite (map_subseteq_size_eq kw' kw).
Qed.

Lemma confid_ElasConf kw : ElasConf.__confid kw = ElasTag.__confid kw.
Proof. reflexivity. Qed.
End confid.

Global Instance canonical_dec c : Decision (canonical c).
Proof. unfold canonical. apply _. Defined.

Global Instance store_wf_dec st : Decision (store_wf st).
Proof. unfold store_wf. apply _. Defined.

Global Instance allocated_dec h v : Decision (allocated h v).
Proof. destruct v; apply _. Defined.

Global Instance store_closed_dec st : Decision (store_closed st).
Proof. unfold store_closed. apply _. Defined.

(** ** The resolver *)

Section translate_key.
Implicit Types (st : state) (key : configuration) (c : ConfigKey).

Lemma translate_key_Some key st c :
  ElasTag.__translate_key key st = Some c →
  c ∈ dict_keys (entries st) ∧
  pairs c ⊆ pairs (ElasTag.__confid key) ∧
  ∀ c', c' ∈ dict_keys (entries st) →
        pairs c' ⊆ pairs (ElasTag.__confid key) → length c' ≤ length c.
Proof.
  unfold ElasTag.__translate_key. cbv zeta.
  intros ([i c0] & Hfind & ->)%fmap_Some. simpl.
  apply list_find_Some in Hfind as (Hi & Hsub & Hfirst).
  split_and!; [|done|].
  - rewrite <- sorted_len_reverse_Permutation.
    by eapply list_elem_of_lookup_2.
  - intros c' Hc' Hsub'.
    rewrite <- sorted_len_reverse_Permutation in Hc'.
    apply list_elem_of_lookup_1 in Hc' as [j Hj].
    destruct (decide (j < i)) as [Hlt|Hge].
    { by destruct (Hfirst j c'). }
    destruct (decide (j = i)) as [->|Hne].
    { by simplify_eq. }
    pose proof (sorted_len_reverse_sorted (dict_keys (entries st))) as Hs.
    apply (StronglySorted_lookup_le _ _ i j c0 c' Hs); [done..|lia].
Qed.

Lemma translate_key_None key st :
  ElasTag.__translate_key key st = None ↔
  ∀ c, c ∈ dict_keys (entries st) → ¬ pairs c ⊆ pairs (ElasTag.__confid key).
Proof.
  unfold ElasTag.__translate_key. cbv zeta.
  rewrite fmap_None, list_find_None, Forall_forall.
  by setoid_rewrite sorted_len_reverse_Permutation.
Qed.

Lemma translate_key_is_Some key st :
  is_Some (ElasTag.__translate_key key st) ↔
  ∃ c, c ∈ dict_keys (entries st) ∧ pairs c ⊆ pairs (ElasTag.__confid key).
Proof.
  split.
  - intros [c Hc]. apply translate_key_Some in Hc as (Hc & Hsub & _). eauto.
  - intros (c & Hc & Hsub).
    destruct (ElasTag.__translate_key key st) eqn:Htr; [by eexists|].
    rewrite translate_key_None in Htr. by destruct (Htr c).
Qed.

(** A query that is itself stored resolves to its own key. *)
Lemma translate_key_exact key st :
  store_wf st →
  ElasTag.__confid key ∈ dict_keys (entries st) →
  ElasTag.__translate_key key st = Some (ElasTag.__confid key).
Proof.
  intros Hwf Hin.
  destruct (ElasTag.__translate_key key st) as [c|] eqn:Htr.
  - apply translate_key_Some in Htr as (Hc & Hsub & Hmax).
    f_equal. apply canonical_subseteq_length; [|done|].
    + unfold store_wf in Hwf. rewrite Forall_forall in Hwf. by apply Hwf.
    + by apply Hmax.
  - rewrite translate_key_None in Htr. by destruct (Htr _ Hin).
Qed.

Lemma getitem_Ok key st v :
  (ElasTag.__getitem__ key st).1 = Ok v ↔
  ∃ c, ElasTag.__translate_key key st = Some c ∧
       dict_getitem c (entries st) = Some v.
Proof.
  unfold ElasTag.__getitem__.
  destruct (ElasTag.__translate_key key st) as [c|] eqn:Htr.
  - destruct (dict_getitem c (entries st)) as [v'|] eqn:Hget; simpl.
    + split; [intros [= ->]; eauto|]. by intros (c' & [= <-] & Hc'); simplify_eq.
    + split; [done|]. by intros (c' & [= <-] & Hc'); simplify_eq.
  - simpl. split; [done|]. by intros (c' & ? & _).
Qed.

Lemma getitem_Raise key st e :
  (ElasTag.__getitem__ key st).1 = Raise e ↔
  ElasTag.__translate_key key st = None ∧ e = KeyError_no_match key.
Proof.
  unfold ElasTag.__getitem__.
  destruct (ElasTag.__translate_key key st) as [c|] eqn:Htr.
  - apply translate_key_Some in Htr as (Hc%dict_getitem_is_Some & _).
    destruct Hc as [v ->]. simpl. split; [done|by intros [? _]].
  - simpl. split; [by intros [= <-]|by intros [_ ->]].
Qed.
End translate_key.

(** Closed decidable statements are settled by evaluation. *)
Ltac by_compute := apply (bool_decide_unpack _); vm_compute; exact I.

(** ** Retrieval *)

(** C1. On a store whose keys were built by [__confid]: when
    [__getitem__] returns a value, it is the value stored under a key whose
    pairs are all in the query and which is at least as long as every stored
    key with that property; and when configurations A ⊂ B ⊂ C are all
    stored, the query C gets the value stored under C. *)
Theorem get_most_specific (st : state) (query : configuration) :
  store_wf st →
  (∀ v, (ElasTag.__getitem__ query st).1 = Ok v →
     ∃ c, dict_getitem c (entries st) = Some v ∧
          pairs c ⊆ pairs (ElasTag.__confid query) ∧
          ∀ c', c' ∈ dict_keys (entries st) →
                pairs c' ⊆ pairs (ElasTag.__confid query) →
                length c' ≤ length c) ∧
  (∀ A B vA vB vC,
     pairs (ElasTag.__confid A) ⊂ pairs (ElasTag.__confid B) →
     pairs (ElasTag.__confid B) ⊂ pairs (ElasTag.__confid query) →
     dict_getitem (ElasTag.__confid A) (entries st) = Some vA →
     dict_getitem (ElasTag.__confid B) (entries st) = Some vB →
     dict_getitem (ElasTag.__confid query) (entries st) = Some vC →
     (ElasTag.__getitem__ query st).1 = Ok vC).
Proof.
  intros Hwf. split.
  - intros v (c & Htr & Hget)%getitem_Ok.
    apply translate_key_Some in Htr as (_ & Hsub & Hmax). eauto.
  - intros A B vA vB vC _ _ _ _ HC.
    apply getitem_Ok. exists (ElasTag.__confid query). split; [|done].
    apply translate_key_exact; [done|].
    apply dict_getitem_is_Some. by eexists.
Qed.

Lemma get_most_specific_witness :
  store_wf doc_store ∧
  (ElasTag.__getitem__ en_comp_construction doc_store).1
    = Ok (Str "en-comp-construction").
Proof.
  assert (Hwf : store_wf doc_store) by by_compute.
  split; [exact Hwf|].
  apply (proj2 (get_most_specific doc_store en_comp_construction Hwf)
           lang_en en_construction (Str "en") (Str "en-construction")).
  - by_compute.
  - by_compute.
  - reflexivity.
  - reflexivity.
  - reflexivity.
Defined.

(** C2. [__getitem__] raises the [KeyError] carrying the query exactly when
    no stored key has all its pairs in the query, it raises nothing else, and
    it returns the state it was given; so it raises on a store without
    entries, and on a query that lacks an attribute every stored key has.
    [ElasConf.__getitem__] is the same function. *)
Theorem get_raises_iff_no_match (st : state) (query : configuration) :
  ElasConf.__getitem__ query st = ElasTag.__getitem__ query st ∧
  (ElasTag.__getitem__ query st).2 = st ∧
  ((ElasTag.__getitem__ query st).1 = Raise (KeyError_no_match query) ↔
   ¬ ∃ c, c ∈ dict_keys (entries st) ∧
          pairs c ⊆ pairs (ElasTag.__confid query)) ∧
  (∀ e, (ElasTag.__getitem__ query st).1 = Raise e →
        e = KeyError_no_match query) ∧
  (entries st = [] →
   (ElasTag.__getitem__ query st).1 = Raise (KeyError_no_match query)) ∧
  (∀ a, query !! a = None →
        (∀ c, c ∈ dict_keys (entries st) → a ∈ c.*1) →
        (ElasTag.__getitem__ query st).1 = Raise (KeyError_no_match query)).
Proof.
  assert (Hiff : (ElasTag.__getitem__ query st).1
                   = Raise (KeyError_no_match query) ↔
                 ¬ ∃ c, c ∈ dict_keys (entries st) ∧
                        pairs c ⊆ pairs (ElasTag.__confid query)).
  { rewrite getitem_Raise, <- translate_key_is_Some, <- eq_None_not_Some.
    split; [by intros [? _]|done]. }
  split_and!.
  - reflexivity.
  - unfold ElasTag.__getitem__.
    destruct (ElasTag.__translate_key query st) as [c|]; [|done].
    by destruct (dict_getitem c (entries st)).
  - exact Hiff.
  - by intros e [_ ->]%getitem_Raise.
  - intros Hnil. apply Hiff. intros (c & Hc & _).
    unfold dict_keys in Hc. rewrite Hnil in Hc. by apply elem_of_nil in Hc.
  - intros a Ha Hall. apply Hiff. intros (c & Hc & Hsub).
    apply Hall, list_elem_of_fmap in Hc as ([a' v] & -> & Hin).
    assert ((a', v) ∈ pairs (ElasTag.__confid query)) as Hq.
    { apply Hsub. by apply elem_of_list_to_set. }
    apply elem_of_list_to_set, elem_of_confid in Hq. simpl in Ha. congruence.
Qed.

(** ** Containment *)

(** [key in el] for [ElasConf]: true exactly when some stored key has all
    its pairs in the query. *)
Lemma ElasConf_operator_in_iff (st : state) (query : configuration) :
  ElasConf.operator_in query st = true ↔
  ∃ c, c ∈ dict_keys (entries st) ∧ pairs c ⊆ pairs (ElasTag.__confid query).
Proof.
  rewrite <- translate_key_is_Some.
  unfold ElasConf.operator_in, ElasConf.__contains__.
  change (ElasConf.__translate_key query st)
    with (ElasTag.__translate_key query st).
  destruct (ElasTag.__translate_key query st).
  - split; [by eexists|done].
  - split; [done|by intros [? ?]].
Qed.

(** [key in el] for [ElasTag]: true exactly when some stored key other than
    the empty tuple has all its pairs in the query. *)
Lemma ElasTag_operator_in_iff (st : state) (query : configuration) :
  ElasTag.operator_in query st = true ↔
  ∃ c, c ∈ dict_keys (entries st) ∧
       pairs c ⊆ pairs (ElasTag.__confid query) ∧ c ≠ [].
Proof.
  unfold ElasTag.operator_in, ElasTag.__contains__, ElasTag.truth_value.
  destruct (ElasTag.__translate_key query st) as [c|] eqn:Htr.
  - apply translate_key_Some in Htr as (Hc & Hsub & Hmax).
    rewrite negb_true_iff, Nat.eqb_neq. split.
    + intros Hlen. exists c. split_and!; [done..|]. by intros ->.
    + intros (c' & Hc' & Hsub' & Hne).
      specialize (Hmax c' Hc' Hsub'). destruct c'; simpl in *; [done|lia].
  - rewrite translate_key_None in Htr. split; [done|].
    intros (c' & Hc' & Hsub' & _). by destruct (Htr c').
Qed.

(** C3. On a store whose only entry is under the empty configuration, the
    query [{'lang': 'en'}] is matched by a stored key and
    [ElasConf]'s [in] says so, but [ElasTag]'s [in] is false: its
    [__contains__] returns the matched key, the empty tuple, whose truth
    value is false.  On the same store [haskey({})] is true and [{} in el]
    is false. *)
Theorem elastic_contains_empty_key :
  (∃ c, c ∈ dict_keys (entries default_store) ∧
        pairs c ⊆ pairs (ElasTag.__confid lang_en)) ∧
  ElasTag.__contains__ lang_en default_store = Some [] ∧
  ElasTag.operator_in lang_en default_store = false ∧
  ElasConf.operator_in lang_en default_store = true ∧
  (ElasTag.__getitem__ lang_en default_store).1 = Ok (Str "default") ∧
  ElasTag.haskey ∅ default_store = true ∧
  ElasTag.operator_in ∅ default_store = false.
Proof.
  split_and!; try by vm_compute.
  exists []. split; by_compute.
Qed.

(** C4. [ElasTag.haskey] is true exactly when the tuple built from the
    query is a stored key; [ElasConf.haskey] is [key in self], true exactly
    when some stored key has all its pairs in the query. *)
Theorem haskey_exact_or_elastic (st : state) (query : configuration) :
  (ElasTag.haskey query st = true ↔
   ElasTag.__confid query ∈ dict_keys (entries st)) ∧
  (ElasConf.haskey query st = true ↔
   ∃ c, c ∈ dict_keys (entries st) ∧
        pairs c ⊆ pairs (ElasConf.__confid query)).
Proof.
  split.
  - unfold ElasTag.haskey, dict_contains. apply bool_decide_eq_true.
  - apply ElasConf_operator_in_iff.
Qed.

(** [ElasConf.haskey] is true for a query that is not a stored key. *)
Lemma ElasConf_haskey_not_exact :
  ¬ (ElasConf.haskey en_retail en_store = true ↔
     ElasConf.__confid en_retail ∈ dict_keys (entries en_store)).
Proof.
  intros [Hex _].
  assert (Hin : ElasConf.__confid en_retail ∈ dict_keys (entries en_store))
    by (apply Hex; by vm_compute).
  revert Hin. by_compute.
Qed.

(** The docstring: [{'lang': 'en', 'sector': 'retail'} in el] is true and
    [el.haskey] of it is false, while both hold of
    [{'lang': 'en', 'sector': 'construction'}]. *)
Example doc_elastic_vs_exact :
  ElasTag.operator_in en_retail doc_store = true ∧
  ElasTag.haskey en_retail doc_store = false ∧
  ElasTag.operator_in en_construction doc_store = true ∧
  ElasTag.haskey en_construction doc_store = true.
Proof. by vm_compute. Qed.

(** The docstring: the lookups of the opening example. *)
Example doc_getitem :
  (ElasTag.__getitem__ lang_es doc_store).1 = Ok (Str "es") ∧
  (ElasTag.__getitem__ en_construction doc_store).1
    = Ok (Str "en-construction") ∧
  (ElasTag.__getitem__ {["lang" := "ca"]} doc_store).1
    = Raise (KeyError_no_match {["lang" := "ca"]}) ∧
  (ElasTag.__getitem__ en_retail doc_store).1 = Ok (Str "en") ∧
  (ElasTag.__getitem__ {["sector" := "retail"]} doc_store).1
    = Raise (KeyError_no_match {["sector" := "retail"]}).
Proof. by vm_compute. Qed.

(** ** Objects *)

Section heap.
Implicit Types (h : heap) (o : object) (l : loc) (v : value).

Lemma fresh_lookup h : h !! fresh (dom h) = None.
Proof. apply not_elem_of_dom, is_fresh. Qed.

Lemma fresh_insert_ne h o :
  fresh (dom (<[fresh (dom h) := o]> h)) ≠ fresh (dom h).
Proof.
  intros Heq.
  pose proof (fresh_lookup (<[fresh (dom h) := o]> h)) as Hf.
  rewrite Heq in Hf. by rewrite lookup_insert_eq in Hf.
Qed.

Lemma as_list_Some h v l xs :
  as_list h v = Some (l, xs) ↔ v = Ref l ∧ h !! l = Some (PyList xs).
Proof.
  destruct v as [s|l']; simpl; [by split; [|intros [? _]]|].
  split.
  - destruct (h !! l') as [[xs'|s']|] eqn:Hl; intros [= <- <-]; by rewrite Hl.
  - intros [[= ->] ->]. done.
Qed.

Lemma as_set_Some h v l s :
  as_set h v = Some (l, s) ↔ v = Ref l ∧ h !! l = Some (PySet s).
Proof.
  destruct v as [x|l']; simpl; [by split; [|intros [? _]]|].
  split.
  - destruct (h !! l') as [[xs'|s']|] eqn:Hl; intros [= <- <-]; by rewrite Hl.
  - intros [[= ->] ->]. done.
Qed.

Lemma as_list_None_shape h v :
  as_list h v = None → ∀ xs, shape h v ≠ ListOf xs.
Proof.
  destruct v as [s|l]; simpl; [done|].
  by destruct (h !! l) as [[xs'|s']|].
Qed.

Lemma as_set_None_shape h v :
  as_set h v = None → ∀ s, shape h v ≠ SetOf s.
Proof.
  destruct v as [x|l]; simpl; [done|].
  by destruct (h !! l) as [[xs'|s']|].
Qed.

Lemma shape_insert_eq h l o :
  shape (<[l := o]> h) (Ref l)
  = match o with PyList xs => ListOf xs | PySet s => SetOf s end.
Proof. simpl. by rewrite lookup_insert_eq. Qed.

(** Objects other than the one written keep their shape. *)
Lemma shape_insert_ne h l o v :
  v ≠ Ref l → shape (<[l := o]> h) v = shape h v.
Proof.
  destruct v as [s|l']; simpl; [done|]. intros Hne.
  rewrite lookup_insert_ne; [done|]. congruence.
Qed.
End heap.

(** ** Accumulating under a key *)

(** C5. [append] always returns a list, equal element for element to the
    one the entry holds after the call, and ending in [val].  Without a
    prior entry that list is [[val]]; when the entry holds a list, [val] is
    added at the end of that very object, which is also what is returned;
    when it holds anything else, the entry now holds a new list
    [[prev, val]].  [ElasConf.append] is the same function. *)
Theorem append_accumulates (st : state) (key : configuration)
    (val : value) :
  let config := ElasTag.__confid key in
  let st' := (ElasTag.append key val st).2 in
  ElasConf.append key val st = ElasTag.append key val st ∧
  ∃ r ys,
    (ElasTag.append key val st).1 = Ok r ∧
    shape (objects st') r = ListOf ys ∧
    stored_value st' config = Some (ListOf ys) ∧
    last ys = Some val ∧
    match stored_value st config with
    | None => ys = [val]
    | Some (ListOf xs) =>
        ys = xs ++ [val] ∧
        dict_getitem config (entries st) = Some r ∧
        dict_getitem config (entries st') = Some r
    | Some (Single _) | Some (SetOf _) =>
        ∃ prev, dict_getitem config (entries st) = Some prev ∧
                ys = [prev; val]
    end.
Proof.
  intros config st'. split; [reflexivity|].
  subst st'. unfold ElasTag.append, stored_value. fold config.
  destruct (dict_contains config (entries st)) eqn:Hc.
  - apply dict_contains_true in Hc as [prev Hprev]. rewrite Hprev.
    destruct (as_list (objects st) prev) as [[l xs]|] eqn:Hl.
    + apply as_list_Some in Hl as [-> Hl]. cbn [fst snd entries objects].
      exists (Ref l), (xs ++ [val]). rewrite Hprev. cbn [fmap option_fmap option_map].
      rewrite shape_insert_eq. split_and!; [done..|by rewrite last_snoc|].
      simpl. by rewrite Hl.
    + unfold alloc. cbn [fst snd entries objects].
      set (l1 := fresh (dom (objects st))).
      set (h1 := <[l1 := PyList [prev; val]]> (objects st)).
      set (l2 := fresh (dom h1)).
      assert (l2 ≠ l1) as Hne by apply fresh_insert_ne.
      exists (Ref l2), [prev; val].
      rewrite dict_getitem_setitem_eq. cbn [fmap option_fmap option_map].
      rewrite shape_insert_eq, shape_insert_ne by congruence.
      subst h1. rewrite shape_insert_eq. split_and!; [done..|].
      pose proof (as_list_None_shape _ _ Hl) as Hns.
      destruct (shape (objects st) prev); [by eexists|by destruct (Hns xs)|by eexists].
  - apply dict_contains_false in Hc. rewrite Hc.
    unfold alloc. cbn [fst snd entries objects].
    set (l1 := fresh (dom (objects st))).
    set (h1 := <[l1 := PyList [val]]> (objects st)).
    set (l2 := fresh (dom h1)).
    assert (l2 ≠ l1) as Hne by apply fresh_insert_ne.
    exists (Ref l2), [val].
    rewrite dict_getitem_setitem_eq. cbn [fmap option_fmap option_map].
    rewrite shape_insert_eq, shape_insert_ne by congruence.
    subst h1. by rewrite shape_insert_eq.
Qed.

(** The docstring: appending to an entry that holds a string, twice. *)
Example doc_append :
  let st1 := (ElasTag.append en_construction (Str "x") doc_store).2 in
  let st2 := (ElasTag.append en_construction (Str "y") st1).2 in
  stored_value doc_store (ElasTag.__confid en_construction)
    = Some (Single (Str "en-construction")) ∧
  stored_value st1 (ElasTag.__confid en_construction)
    = Some (ListOf [Str "en-construction"; Str "x"]) ∧
  stored_value st2 (ElasTag.__confid en_construction)
    = Some (ListOf [Str "en-construction"; Str "x"; Str "y"]).
Proof. by vm_compute. Qed.

(** What [add] does with a string, by the shape of the prior entry: a set
    is created, extended in place, or built from the prior string; on a
    prior list [set([prev, val])] hashes the list and raises. *)
Lemma add_string_cases (st : state) (key : configuration) (x : string) :
  let config := ElasTag.__confid key in
  let res := ElasTag.add key (Str x) st in
  let returns (s : gset string) :=
    ∃ r, res.1 = Ok r ∧ shape (objects res.2) r = SetOf s ∧
         stored_value res.2 config = Some (SetOf s) in
  match stored_value st config with
  | None => returns {[x]}
  | Some (SetOf s) => returns (s ∪ {[x]})
  | Some (Single (Str p)) => returns {[p; x]}
  | Some (Single (Ref _)) | Some (ListOf _) =>
      res = (Raise TypeError_unhashable, st)
  end.
Proof.
  intros config res returns. subst res returns.
  unfold ElasTag.add, stored_value. fold config.
  destruct (dict_contains config (entries st)) eqn:Hc.
  - apply dict_contains_true in Hc as [prev Hprev]. rewrite Hprev.
    cbn [fmap option_fmap option_map].
    destruct (as_set (objects st) prev) as [[l s]|] eqn:Hs.
    + apply as_set_Some in Hs as [-> Hs]. simpl shape at 1. rewrite Hs.
      cbn [fst snd entries objects]. exists (Ref l).
      rewrite Hprev. cbn [fmap option_fmap option_map].
      by rewrite shape_insert_eq.
    + pose proof (as_set_None_shape _ _ Hs) as Hns.
      destruct prev as [p|l]; simpl shape at 1.
      * unfold ElasTag.new_set, alloc. cbn [set_of_values fst snd entries objects].
        rewrite (right_id_L ∅ (∪)).
        set (l1 := fresh (dom (objects st))).
        set (h1 := <[l1 := PySet ({[p]} ∪ {[x]})]> (objects st)).
        set (l2 := fresh (dom h1)).
        assert (l2 ≠ l1) as Hne by apply fresh_insert_ne.
        exists (Ref l2). cbn [fst snd entries objects].
        rewrite dict_getitem_setitem_eq. cbn [fmap option_fmap option_map].
        rewrite shape_insert_eq, shape_insert_ne by congruence.
        subst h1. by rewrite shape_insert_eq.
      * simpl in Hns. unfold ElasTag.new_set. cbn [set_of_values].
        destruct (objects st !! l) as [[xs|s]|];
          [done|by destruct (Hns s)|done].
  - apply dict_contains_false in Hc. rewrite Hc.
    cbn [fmap option_fmap option_map].
    unfold ElasTag.new_set, alloc. cbn [set_of_values fst snd entries objects].
    rewrite (right_id_L ∅ (∪)).
    set (l1 := fresh (dom (objects st))).
    set (h1 := <[l1 := PySet {[x]}]> (objects st)).
    set (l2 := fresh (dom h1)).
    assert (l2 ≠ l1) as Hne by apply fresh_insert_ne.
    exists (Ref l2). cbn [fst snd entries objects].
    rewrite dict_getitem_setitem_eq. cbn [fmap option_fmap option_map].
    rewrite shape_insert_eq, shape_insert_ne by congruence.
    subst h1. by rewrite shape_insert_eq.
Qed.

(** C6. After [el.append({'lang': 'es'}, 'a')] the entry holds the list
    [['a']], and [el.add({'lang': 'es'}, 'b')] raises [TypeError]:
    [set([prev, val])] hashes the list.  The entry is left as it was. *)
Theorem add_on_list_raises :
  stored_value es_list_store (ElasTag.__confid lang_es)
    = Some (ListOf [Str "a"]) ∧
  ElasTag.add lang_es (Str "b") es_list_store
    = (Raise TypeError_unhashable, es_list_store).
Proof.
  assert (Hs : stored_value es_list_store (ElasTag.__confid lang_es)
                 = Some (ListOf [Str "a"])) by by vm_compute.
  split; [exact Hs|].
  pose proof (add_string_cases es_list_store lang_es "b") as Hadd.
  cbv zeta in Hadd. by rewrite Hs in Hadd.
Qed.

(** C7. Starting without an entry under the key, adding the string [v]
    twice leaves the entry holding the set [{v}], of size 1, after the first
    call and after the second; adding [w] then leaves it holding [{v, w}].
    Every call returns a set equal to the one then stored.  (The values are
    strings: a set holds hashable values only.) *)
Theorem add_twice_then_other (st : state) (k : configuration)
    (v w : string) :
  stored_value st (ElasTag.__confid k) = None →
  let config := ElasTag.__confid k in
  let r1 := ElasTag.add k (Str v) st in
  let r2 := ElasTag.add k (Str v) r1.2 in
  let r3 := ElasTag.add k (Str w) r2.2 in
  stored_value r1.2 config = Some (SetOf {[v]}) ∧
  stored_value r2.2 config = Some (SetOf {[v]}) ∧
  size ({[v]} : gset string) = 1 ∧
  stored_value r3.2 config = Some (SetOf {[v; w]}) ∧
  (∃ s1 s2 s3, r1.1 = Ok s1 ∧ shape (objects r1.2) s1 = SetOf {[v]} ∧
               r2.1 = Ok s2 ∧ shape (objects r2.2) s2 = SetOf {[v]} ∧
               r3.1 = Ok s3 ∧ shape (objects r3.2) s3 = SetOf {[v; w]}).
Proof.
  intros Hnone config r1 r2 r3.
  pose proof (add_string_cases st k v) as H1. cbv zeta in H1.
  rewrite Hnone in H1. destruct H1 as (s1 & Hr1 & Hs1 & Hst1).
  pose proof (add_string_cases r1.2 k v) as H2. cbv zeta in H2.
  fold r1 in Hst1. rewrite Hst1 in H2.
  rewrite (idemp_L (∪)) in H2. destruct H2 as (s2 & Hr2 & Hs2 & Hst2).
  pose proof (add_string_cases r2.2 k w) as H3. cbv zeta in H3.
  fold r2 in Hst2. rewrite Hst2 in H3. destruct H3 as (s3 & Hr3 & Hs3 & Hst3).
  split_and!; [done..|apply size_singleton|done|].
  by exists s1, s2, s3.
Qed.

Lemma add_twice_then_other_witness :
  stored_value empty_store (ElasTag.__confid lang_es) = None ∧
  stored_value
    (ElasTag.add lang_es (Str "es2")
       (ElasTag.add lang_es (Str "es1")
          (ElasTag.add lang_es (Str "es1") empty_store).2).2).2
    (ElasTag.__confid lang_es)
  = Some (SetOf {["es1"; "es2"]}).
Proof.
  assert (Hnone : stored_value empty_store (ElasTag.__confid lang_es) = None)
    by reflexivity.
  split; [exact Hnone|].
  apply (add_twice_then_other empty_store lang_es "es1" "es2" Hnone).
Defined.

(** ** The invariant of the store *)

Lemma store_wf_empty : store_wf empty_store.
Proof. constructor. Qed.

Lemma Forall_keys_setitem (P : ConfigKey → Prop) k v d :
  P k → Forall P (dict_keys d) → Forall P (dict_keys (dict_setitem k v d)).
Proof.
  rewrite !Forall_forall. intros Hk Hd k' [->|Hin]%dict_keys_setitem; auto.
Qed.

Lemma store_wf_setitem st key val :
  store_wf st → store_wf (ElasTag.__setitem__ key val st).
Proof. apply Forall_keys_setitem, canonical_confid. Qed.

Lemma store_wf_append st key val :
  store_wf st → store_wf (ElasTag.append key val st).2.
Proof.
  intros Hwf. unfold ElasTag.append.
  repeat (case_match; simpl; try done);
    by apply Forall_keys_setitem; [apply canonical_confid|].
Qed.

Lemma store_wf_add st key val :
  store_wf st → store_wf (ElasTag.add key val st).2.
Proof.
  intros Hwf. unfold ElasTag.add.
  repeat (case_match; simpl; try done);
    by apply Forall_keys_setitem; [apply canonical_confid|].
Qed.

Lemma store_closed_lookup st k l :
  store_closed st → dict_getitem k (entries st) = Some (Ref l) →
  is_Some (objects st !! l).
Proof.
  intros Hcl Hk%dict_getitem_elem_of.
  unfold store_closed in Hcl. rewrite Forall_forall in Hcl.
  apply (Hcl _ Hk).
Qed.

Lemma store_closed_empty : store_closed empty_store.
Proof. constructor. Qed.

Lemma allocated_insert h l o v :
  allocated h v → allocated (<[l := o]> h) v.
Proof.
  destruct v as [s|l']; simpl; [done|]. intros Hv.
  apply lookup_insert_is_Some'. by right.
Qed.

(** Entries stay closed when the heap only gains or rewrites objects and
    every entry is an old one or holds an object of the new heap. *)
Lemma store_closed_extend d h d' h' :
  store_closed (State d h) →
  (∀ v, allocated h v → allocated h' v) →
  (∀ kv, kv ∈ d' → kv ∈ d ∨ allocated h' kv.2) →
  store_closed (State d' h').
Proof.
  unfold store_closed. simpl. rewrite !Forall_forall.
  intros Hd Hh Hd' kv [Hin|Hnew]%Hd'; [|done]. by apply Hh, Hd.
Qed.

Lemma store_closed_setitem st key val :
  allocated (objects st) val → store_closed st →
  store_closed (ElasTag.__setitem__ key val st).
Proof.
  intros Hval Hcl. destruct st as [d h].
  apply (store_closed_extend d h); [done..|].
  intros kv [->|Hin]%dict_setitem_elem_of; [by right|by left].
Qed.

Lemma store_closed_append st key val :
  allocated (objects st) val → store_closed st →
  store_closed (ElasTag.append key val st).2.
Proof.
  intros Hval Hcl. destruct st as [d h]. unfold ElasTag.append, alloc.
  repeat (case_match; simpl in *; simplify_eq; try done).
  - apply (store_closed_extend d h); [done| |by left].
    intros w. apply allocated_insert.
  - apply (store_closed_extend d h); [done| |].
    + intros w Hw. by do 2 apply allocated_insert.
    + intros kv [->|Hin]%dict_setitem_elem_of; [right|by left].
      simpl. apply lookup_insert_is_Some'. right. by rewrite lookup_insert_eq.
  - apply (store_closed_extend d h); [done| |].
    + intros w Hw. by do 2 apply allocated_insert.
    + intros kv [->|Hin]%dict_setitem_elem_of; [right|by left].
      simpl. apply lookup_insert_is_Some'. right. by rewrite lookup_insert_eq.
Qed.

Lemma store_closed_add st key val :
  store_closed st → store_closed (ElasTag.add key val st).2.
Proof.
  intros Hcl. destruct st as [d h].
  unfold ElasTag.add, ElasTag.new_set, alloc.
  repeat (case_match; simpl in *; simplify_eq; try done).
  - apply (store_closed_extend d h); [done| |by left].
    intros w. apply allocated_insert.
  - apply (store_closed_extend d h); [done| |].
    + intros w Hw. by do 2 apply allocated_insert.
    + intros kv [->|Hin]%dict_setitem_elem_of; [right|by left].
      simpl. apply lookup_insert_is_Some'. right. by rewrite lookup_insert_eq.
  - apply (store_closed_extend d h); [done| |].
    + intros w Hw. by do 2 apply allocated_insert.
    + intros kv [->|Hin]%dict_setitem_elem_of; [right|by left].
      simpl. apply lookup_insert_is_Some'. right. by rewrite lookup_insert_eq.
Qed.

(** Both invariants hold of every state a program gets to. *)
Lemma built_invariant st : built st → store_wf st ∧ store_closed st.
Proof.
  induction 1 as [|st h' _ [Hwf Hcl] Hh'|st key val _ [Hwf Hcl] Hval
                  |st key val _ [Hwf Hcl] Hval|st key val _ [Hwf Hcl]].
  - split; constructor.
  - split; [done|]. destruct st as [d h].
    apply (store_closed_extend d h); [done..|by left].
  - split; [by apply store_wf_setitem|by apply store_closed_setitem].
  - split; [by apply store_wf_append|by apply store_closed_append].
  - split; [by apply store_wf_add|by apply store_closed_add].
Qed.

(** ** Writing, then reading *)

(** C9. On a store whose keys were built by [__confid], [el[K] = V]
    followed by [el[K]] returns [V]. *)
Theorem set_then_get (st : state) (K : configuration) (V : value) :
  store_wf st →
  (ElasTag.__getitem__ K (ElasTag.__setitem__ K V st)).1 = Ok V.
Proof.
  intros Hwf. apply getitem_Ok. exists (ElasTag.__confid K). split.
  - apply translate_key_exact; [by apply store_wf_setitem|].
    apply dict_keys_setitem. by left.
  - apply dict_getitem_setitem_eq.
Qed.

Lemma set_then_get_witness :
  store_wf doc_store ∧
  (ElasTag.__getitem__ lang_en
     (ElasTag.__setitem__ lang_en (Str "english") doc_store)).1
  = Ok (Str "english").
Proof.
  assert (Hwf : store_wf doc_store) by by_compute.
  split; [exact Hwf|].
  apply (set_then_get doc_store lang_en (Str "english") Hwf).
Defined.

(** ** Aggregation *)

Lemma all_list_loop (config : gset (string * string)) st ks out :
  Forall (λ c, c ∈ dict_keys (entries st)) ks →
  foldl (ElasTag.all_list_step config st) (Ok out) ks
  = Ok (out ++ concat (contribution st <$> filter (λ c, config ⊆ pairs c) ks)).
Proof.
  intros Hks. revert out.
  induction Hks as [|c ks Hc Hks IH]; intros out; simpl.
  { by rewrite app_nil_r. }
  unfold filter at 1. simpl. fold (filter (λ c, config ⊆ pairs c) ks).
  apply dict_getitem_is_Some in Hc as [val Hval].
  destruct (decide (config ⊆ pairs c)) as [Hsub|Hsub].
  - rewrite bool_decide_eq_true_2 by done. rewrite Hval.
    rewrite fmap_cons. cbn [concat].
    replace (contribution st c)
      with (match as_list (objects st) val with
            | Some (_, xs) => xs
            | None => [val]
            end) by (unfold contribution; by rewrite Hval).
    destruct (as_list (objects st) val) as [[l xs]|];
      by rewrite IH, app_assoc.
  - rewrite bool_decide_eq_false_2 by done. apply IH.
Qed.

(** [all(key)] returns a new list: for each stored key, in iteration order,
    that has all the pairs of the query, the contribution of its entry. *)
Lemma all_list_contents (st : state) (key : option configuration) :
  let config := pairs (ElasTag.__confid (default ∅ key)) in
  let l := fresh (dom (objects st)) in
  ElasTag.all key false st
  = (Ok (Ref l),
     State (entries st)
       (<[l := PyList (concat (contribution st <$>
                                 filter (λ c, config ⊆ pairs c)
                                        (dict_keys (entries st))))]>
          (objects st))).
Proof.
  intros config l. unfold ElasTag.all. fold config.
  rewrite all_list_loop; [done|]. by apply Forall_forall.
Qed.

(** C8. After [el.add({'lang': 'es'}, 'es1')] the entry holds the set
    [{'es1'}]; [el.all()] returns a list whose only element is that set
    object, not its element ['es1'], while [el.bag()] returns the set
    [{'es1'}]. *)
Theorem all_keeps_set_whole :
  let res := ElasTag.all None false es_set_store in
  let bag := ElasTag.bag None es_set_store in
  ∃ s r b,
    dict_getitem (ElasTag.__confid lang_es) (entries es_set_store)
      = Some (Ref s) ∧
    objects es_set_store !! s = Some (PySet {["es1"]}) ∧
    res.1 = Ok (Ref r) ∧
    objects res.2 !! r = Some (PyList [Ref s]) ∧
    objects res.2 !! r ≠ Some (PyList [Str "es1"]) ∧
    bag.1 = Ok (Ref b) ∧
    objects bag.2 !! b = Some (PySet {["es1"]}).
Proof.
  exists 1%positive, 3%positive, 3%positive.
  split_and!; try by vm_compute.
Qed.

(** The docstring: the sizes and contents of [all] after the appends. *)
Example doc_all :
  let st1 := (ElasTag.append en_construction (Str "en-const-appended")
                doc_store).2 in
  let st2 := (ElasTag.append en_retail (Str "en-retail") st1).2 in
  let st3 := (ElasTag.append en_retail (Str "en-ret-appended") st2).2 in
  let contents (res : result value * state) :=
    match res.1 with
    | Ok v => Some (shape (objects res.2) v)
    | Raise _ => None
    end in
  length <$> (contents (ElasTag.all (Some lang_en) false st3)
                ≫= λ s, match s with ListOf xs => Some xs | _ => None end)
    = Some 8 ∧
  contents (ElasTag.all (Some en_construction) false st3)
    = Some (ListOf [Str "en-construction"; Str "en-const-appended";
                    Str "en-comp-construction"]) ∧
  length <$> (contents (ElasTag.all None false st3)
                ≫= λ s, match s with ListOf xs => Some xs | _ => None end)
    = Some 9.
Proof. by vm_compute. Qed.

(** The docstring of [append]: the bag of a list with a repeated element. *)
Example doc_bag :
  let st1 := (ElasTag.append lang_es (Str "es1") empty_store).2 in
  let st2 := (ElasTag.append lang_es (Str "es1") st1).2 in
  let res := ElasTag.bag (Some lang_es) st2 in
  stored_value st2 (ElasTag.__confid lang_es)
    = Some (ListOf [Str "es1"; Str "es1"]) ∧
  ∃ b, res.1 = Ok (Ref b) ∧ objects res.2 !! b = Some (PySet {["es1"]}).
Proof. split; [by vm_compute|]. eexists. split; by vm_compute. Qed.

(** ** What a mutator leaves alone *)

Lemma alloc_frame (h : heap) (o o' : object) (l : loc) :
  h !! l = Some o' → (alloc o h).2 !! l = Some o'.
Proof.
  intros Hl. unfold alloc. simpl. rewrite lookup_insert_ne; [done|].
  intros <-. by rewrite fresh_lookup in Hl.
Qed.

Lemma setitem_changes_at_most st key val :
  changes_at_most (ElasTag.__confid key) st (ElasTag.__setitem__ key val st).
Proof.
  split; [|done]. intros k' Hne. by apply dict_getitem_setitem_ne.
Qed.

Lemma append_changes_at_most st key val :
  changes_at_most (ElasTag.__confid key) st (ElasTag.append key val st).2.
Proof.
  unfold ElasTag.append.
  destruct (dict_contains _ _); [|split].
  - destruct (dict_getitem _ _) as [prev|] eqn:Hprev; [|done].
    destruct (as_list _ _) as [[l xs]|] eqn:Hl; split; simpl.
    + done.
    + apply as_list_Some in Hl as [-> _]. intros l' o Hl' Hne.
      rewrite lookup_insert_ne; [done|]. congruence.
    + intros k' Hne. by apply dict_getitem_setitem_ne.
    + intros l' o Hl' _. by apply alloc_frame, alloc_frame.
  - intros k' Hne. by apply dict_getitem_setitem_ne.
  - intros l' o Hl' _. by apply alloc_frame, alloc_frame.
Qed.

Lemma add_changes_at_most st key val :
  changes_at_most (ElasTag.__confid key) st (ElasTag.add key val st).2.
Proof.
  unfold ElasTag.add, ElasTag.new_set.
  destruct (dict_contains _ _).
  - destruct (dict_getitem _ _) as [prev|] eqn:Hprev; [|done].
    destruct (as_set _ _) as [[l s]|] eqn:Hs.
    + destruct val as [x|?]; [|done]. split; simpl; [done|].
      apply as_set_Some in Hs as [-> _]. intros l' o Hl' Hne.
      rewrite lookup_insert_ne; [done|]. congruence.
    + destruct (set_of_values [prev; val]); [|done]. split; simpl.
      * intros k' Hne. by apply dict_getitem_setitem_ne.
      * intros l' o Hl' _. by apply alloc_frame, alloc_frame.
  - destruct (set_of_values [val]); [|done]. split; simpl.
    + intros k' Hne. by apply dict_getitem_setitem_ne.
    + intros l' o Hl' _. by apply alloc_frame, alloc_frame.
Qed.

(** An entry that does not hold the object of the entry under [k] has the
    same value in [st'] as in [st]. *)
Lemma changes_at_most_stored_value k k' st st' :
  changes_at_most k st st' → store_closed st → k' ≠ k →
  ¬ share_object st k k' →
  stored_value st' k' = stored_value st k'.
Proof.
  intros [Hd Hh] Hcl Hne Hns. unfold stored_value. rewrite Hd by done.
  destruct (dict_getitem k' (entries st)) as [[s|l]|] eqn:Hk'; simpl; [done| |done].
  destruct (store_closed_lookup _ _ _ Hcl Hk') as [o Ho]. rewrite Ho.
  rewrite (Hh l o); [done..|]. intros Hk. apply Hns. by exists l.
Qed.

(** C10. Each of [el[C] = V], [append(C, V)] and [add(C, V)] leaves every
    other key bound to what it was bound to, so that no entry under another
    key appears or disappears; [el[C] = V] changes no object, and [append]
    and [add] change no object other than the one the entry under C held.
    Hence an entry under another key keeps its value after [el[C] = V], and
    after [append] and [add] unless it holds the very object held under
    C. *)
Theorem mutators_frame (st : state) (C : configuration) (V : value)
    (k' : ConfigKey) :
  k' ≠ ElasTag.__confid C →
  store_closed st →
  let config := ElasTag.__confid C in
  let st_set := ElasTag.__setitem__ C V st in
  let st_append := (ElasTag.append C V st).2 in
  let st_add := (ElasTag.add C V st).2 in
  changes_at_most config st st_set ∧
  changes_at_most config st st_append ∧
  changes_at_most config st st_add ∧
  objects st_set = objects st ∧
  stored_value st_set k' = stored_value st k' ∧
  (¬ share_object st config k' →
   stored_value st_append k' = stored_value st k' ∧
   stored_value st_add k' = stored_value st k').
Proof.
  intros Hne Hcl config st_set st_append st_add.
  pose proof (setitem_changes_at_most st C V) as Hset.
  pose proof (append_changes_at_most st C V) as Happ.
  pose proof (add_changes_at_most st C V) as Hadd.
  split_and!; [done..| |].
  - unfold stored_value. subst st_set. simpl.
    by rewrite dict_getitem_setitem_ne.
  - intros Hns. split; by eapply changes_at_most_stored_value.
Qed.

(** On [shared_store] the entries under [{'lang': 'en'}] and
    [{'lang': 'es'}] hold one list; [append({'lang': 'en'}, 'c')] changes
    the value of the entry under [{'lang': 'es'}]. *)
Lemma append_changes_shared_entry :
  ElasTag.__confid lang_es ≠ ElasTag.__confid lang_en ∧
  stored_value shared_store (ElasTag.__confid lang_es)
    = Some (ListOf [Str "a"; Str "b"]) ∧
  stored_value (ElasTag.append lang_en (Str "c") shared_store).2
               (ElasTag.__confid lang_es)
    = Some (ListOf [Str "a"; Str "b"; Str "c"]) ∧
  stored_value (ElasTag.append lang_en (Str "c") shared_store).2
               (ElasTag.__confid lang_es)
    ≠ stored_value shared_store (ElasTag.__confid lang_es).
Proof. split_and!; by vm_compute. Qed.

Lemma mutators_frame_witness :
  [("lang", "es")] ≠ ElasTag.__confid lang_en ∧
  store_closed es_list_store ∧
  stored_value (ElasTag.append lang_en (Str "x") es_list_store).2
               [("lang", "es")]
    = stored_value es_list_store [("lang", "es")].
Proof.
  assert (Hne : [("lang", "es")] ≠ ElasTag.__confid lang_en) by by_compute.
  assert (Hcl : store_closed es_list_store) by by_compute.
  split_and!; [exact Hne|exact Hcl|].
  apply (mutators_frame es_list_store lang_en (Str "x") [("lang", "es")]
           Hne Hcl).
  intros (l & Hl & _). by vm_compute in Hl.
Defined.

(** * Further properties of the code *)

(** ** The tuple built by [__confid] *)

Lemma string_leb_iff a b :
  String.leb a b = true ↔ a = b ∨ OrderedTypeEx.String_as_OT.lt a b.
Proof.
  unfold String.leb.
  pose proof (OrderedTypeEx.String_as_OT.cmp_eq a b) as Heq.
  pose proof (OrderedTypeEx.String_as_OT.cmp_lt a b) as Hlt.
  unfold OrderedTypeEx.String_as_OT.cmp in *.
  destruct (String.compare a b) eqn:Hc.
  - split; [intros _; left; by apply Heq|done].
  - split; [intros _; right; by apply Hlt|done].
  - split; [done|]. intros [Hab|Hab].
    + apply Heq in Hab. discriminate.
    + apply Hlt in Hab. discriminate.
Qed.

Lemma string_leb_trans a b c :
  String.leb a b = true → String.leb b c = true → String.leb a c = true.
Proof.
  rewrite !string_leb_iff. intros [->|Hab] [->|Hbc]; auto.
  right. by eapply OrderedTypeEx.String_as_OT.lt_trans.
Qed.

Lemma string_ltb_iff a b :
  String.ltb a b = true ↔ String.leb a b = true ∧ a ≠ b.
Proof.
  unfold String.ltb, String.leb.
  pose proof (OrderedTypeEx.String_as_OT.cmp_eq a b) as Heq.
  unfold OrderedTypeEx.String_as_OT.cmp in *.
  destruct (String.compare a b) eqn:Hc.
  - split; [done|]. intros [_ Hne]. destruct Hne. by apply Heq.
  - split; [|done]. intros _. split; [done|]. intros Hab.
    apply Heq in Hab. discriminate.
  - split; [done|]. by intros [? _].
Qed.

Lemma sorted_str_sorted l :
  StronglySorted (λ a b, String.leb a b = true) (sorted_str l).
Proof.
  apply sorted_by_StronglySorted.
  - intros x y Hxy. destruct (String.leb_total x y) as [H|H]; congruence.
  - apply string_leb_trans.
Qed.

Lemma confid_names kw :
  (ElasTag.__confid kw).*1 = sorted_str (map_to_list kw).*1.
Proof.
  unfold ElasTag.__confid.
  assert (Hall : ∀ k, k ∈ sorted_str (map_to_list kw).*1 → is_Some (kw !! k)).
  { intros k. unfold sorted_str. rewrite sorted_by_Permutation.
    intros ([k' v] & -> & Hin)%list_elem_of_fmap.
    apply elem_of_map_to_list in Hin. by eexists. }
  induction (sorted_str (map_to_list kw).*1) as [|k l IH]; [done|].
  destruct (Hall k) as [v Hv]; [by left|]. simpl. rewrite Hv. simpl.
  f_equal. apply IH. intros k' Hk'. apply Hall. by right.
Qed.

(** A sorted list without duplicates is strictly sorted. *)
Lemma StronglySorted_NoDup_strict (l : list string) :
  StronglySorted (λ a b, String.leb a b = true) l → NoDup l →
  StronglySorted (λ a b, String.ltb a b = true) l.
Proof.
  induction 1 as [|x l Hl IH Hx]; intros Hnd; [constructor|].
  apply NoDup_cons in Hnd as [Hnin Hnd]. constructor; [by apply IH|].
  rewrite Forall_forall in Hx |- *. intros y Hy.
  apply string_ltb_iff. split; [by apply Hx|]. by intros ->.
Qed.

(** X1. The tuple [__confid] builds lists exactly the pairs of the
    mapping, once each, with the attribute names in strictly increasing
    order; two mappings with the same tuple are the same mapping. *)
Theorem confid_canonical_form (kw : configuration) :
  (∀ k v, (k, v) ∈ ElasTag.__confid kw ↔ kw !! k = Some v) ∧
  length (ElasTag.__confid kw) = size kw ∧
  StronglySorted (λ a b, String.ltb a b = true) (ElasTag.__confid kw).*1 ∧
  (∀ kw', ElasTag.__confid kw' = ElasTag.__confid kw → kw' = kw) ∧
  ElasConf.__confid kw = ElasTag.__confid kw.
Proof.
  split_and!.
  - apply elem_of_confid.
  - apply length_confid.
  - apply StronglySorted_NoDup_strict.
    + rewrite confid_names. apply sorted_str_sorted.
    + rewrite confid_Permutation. apply NoDup_fst_map_to_list.
  - intros kw' Heq. by apply confid_inj.
  - reflexivity.
Qed.

(** ** More on the resolver *)

Lemma pairs_subseteq_nil c : pairs c ⊆ ∅ → c = [].
Proof.
  destruct c as [|p c]; [done|]. intros Hsub.
  assert (p ∈ (∅ : gset (string * string))) as Hp.
  { apply Hsub. apply elem_of_list_to_set. by left. }
  by apply not_elem_of_empty in Hp.
Qed.

Lemma list_find_split {A} (P : A → Prop) `{!∀ x, Decision (P x)} l i x :
  list_find P l = Some (i, x) →
  ∃ l1 l2, l = l1 ++ x :: l2 ∧ P x ∧ Forall (λ y, ¬ P y) l1.
Proof.
  intros (Hi & Hx & Hfirst)%list_find_Some.
  exists (take i l), (drop (S i) l). split_and!; [|done|].
  - by rewrite take_drop_middle.
  - apply Forall_forall. intros y [j Hj]%list_elem_of_lookup_1.
    apply lookup_take_Some in Hj as [Hj Hlt]. by eapply Hfirst.
Qed.

(** [sorted(keys, key=len, reverse=True)] keeps keys of one length in the
    order they had. *)
Lemma filter_sorted_len_reverse (R : ConfigKey → Prop)
    `{!∀ c, Decision (R c)} n l :
  (∀ c, R c → length c = n) →
  filter R (sorted_len_reverse l) = filter R l.
Proof.
  intros HR. unfold sorted_len_reverse, sorted_by.
  induction l as [|x l IH]; [done|]. simpl.
  rewrite filter_cons, <- IH.
  generalize (foldr (insert_sorted (λ c1 c2, Nat.leb (length c2) (length c1)))
                [] l).
  clear IH. intros s. induction s as [|y s IHs]; simpl; [done|].
  destruct (Nat.leb (length y) (length x)) eqn:Hle; [by rewrite filter_cons|].
  apply Nat.leb_gt in Hle.
  rewrite !filter_cons, IHs.
  destruct (decide (R x)) as [Hx|Hx], (decide (R y)) as [Hy|Hy]; try done.
  apply HR in Hx, Hy. lia.
Qed.

(** X2. A query with more pairs than one that is matched is matched too,
    by a key at least as long: adding attributes to a query never turns a
    hit into a [KeyError]. *)
Theorem get_wider_query (st : state) (q q' : configuration) (v : value) :
  q ⊆ q' →
  (ElasTag.__getitem__ q st).1 = Ok v →
  ∃ c c' v',
    ElasTag.__translate_key q st = Some c ∧
    ElasTag.__translate_key q' st = Some c' ∧
    length c ≤ length c' ∧
    (ElasTag.__getitem__ q' st).1 = Ok v'.
Proof.
  intros Hq (c & Htr & Hget)%getitem_Ok.
  pose proof Htr as (Hc & Hsub & _)%translate_key_Some.
  assert (Hsub' : pairs c ⊆ pairs (ElasTag.__confid q')).
  { etrans; [exact Hsub|]. by apply pairs_confid_subseteq. }
  destruct (ElasTag.__translate_key q' st) as [c'|] eqn:Htr'.
  - pose proof Htr' as (Hc' & _ & Hmax)%translate_key_Some.
    apply dict_getitem_is_Some in Hc' as [v' Hv'].
    exists c, c', v'. split_and!; [done..|by apply Hmax|].
    apply getitem_Ok. eauto.
  - rewrite translate_key_None in Htr'. by destruct (Htr' c).
Qed.

Lemma get_wider_query_witness :
  lang_en ⊆ en_retail ∧
  ∃ c c' v',
    ElasTag.__translate_key lang_en doc_store = Some c ∧
    ElasTag.__translate_key en_retail doc_store = Some c' ∧
    length c ≤ length c' ∧
    (ElasTag.__getitem__ en_retail doc_store).1 = Ok v'.
Proof.
  assert (Hsub : lang_en ⊆ en_retail) by by_compute.
  split; [exact Hsub|].
  apply (get_wider_query doc_store lang_en en_retail (Str "en") Hsub).
  reflexivity.
Defined.

(** X3. The empty query [{}] is matched only by the empty key: [el[{}]]
    returns what was stored under [{}] and raises if nothing was.  Once
    something is stored under [{}], no lookup raises. *)
Theorem get_empty_query (st : state) :
  (∀ v, (ElasTag.__getitem__ ∅ st).1 = Ok v ↔
        dict_getitem [] (entries st) = Some v) ∧
  ([] ∈ dict_keys (entries st) →
   ∀ q, ∃ v, (ElasTag.__getitem__ q st).1 = Ok v).
Proof.
  split.
  - intros v. rewrite getitem_Ok. split.
    + intros (c & (_ & Hsub & _)%translate_key_Some & Hget).
      by rewrite (pairs_subseteq_nil c Hsub) in Hget.
    + intros Hget. exists []. split; [|done].
      destruct (ElasTag.__translate_key ∅ st) as [c|] eqn:Htr.
      * apply translate_key_Some in Htr as (_ & Hsub & _).
        by rewrite (pairs_subseteq_nil c Hsub).
      * rewrite translate_key_None in Htr. destruct (Htr []); [|done].
        apply dict_getitem_is_Some. by eexists.
  - intros Hin q.
    destruct (ElasTag.__translate_key q st) as [c|] eqn:Htr.
    + pose proof Htr as (Hc & _)%translate_key_Some.
      apply dict_getitem_is_Some in Hc as [v Hv].
      exists v. apply getitem_Ok. eauto.
    + rewrite translate_key_None in Htr. destruct (Htr [] Hin).
      unfold pairs. simpl. apply empty_subseteq.
Qed.

(** X4. Among the stored keys that match the query and are as long as the
    one [__translate_key] returns, the returned key is the first in the
    dict's iteration order. *)
Theorem translate_key_tie_break (st : state) (q : configuration)
    (c : ConfigKey) :
  ElasTag.__translate_key q st = Some c →
  head (filter (λ c', pairs c' ⊆ pairs (ElasTag.__confid q) ∧
                      length c' = length c)
               (dict_keys (entries st))) = Some c.
Proof.
  unfold ElasTag.__translate_key. cbv zeta.
  intros ([i c0] & Hfind & ->)%fmap_Some. simpl.
  apply list_find_split in Hfind as (l1 & l2 & Hs & Hc & Hl1).
  rewrite <- (filter_sorted_len_reverse _ (length c0)) by (by intros c' [_ ?]).
  rewrite Hs, filter_app, filter_cons_True by done.
  replace (filter _ l1) with (@nil ConfigKey); [done|].
  symmetry. clear Hs. induction Hl1 as [|y l1 Hy Hl1 IH]; [done|].
  rewrite filter_cons_False; [done|]. intros [Hp _]. by apply Hy.
Qed.

Lemma translate_key_tie_break_witness :
  ElasTag.__translate_key
    {["lang" := "en"; "sector" := "consulting"; "company" := "comp"]}
    doc_store
  = Some [("lang", "en"); ("sector", "consulting")] ∧
  head (filter (λ c', pairs c' ⊆
                        pairs (ElasTag.__confid
                                 {["lang" := "en"; "sector" := "consulting";
                                   "company" := "comp"]}) ∧
                      length c' = 2)
               (dict_keys (entries doc_store)))
  = Some [("lang", "en"); ("sector", "consulting")].
Proof.
  assert (Htr : ElasTag.__translate_key
                  {["lang" := "en"; "sector" := "consulting";
                    "company" := "comp"]} doc_store
                = Some [("lang", "en"); ("sector", "consulting")])
    by by vm_compute.
  split; [exact Htr|].
  apply (translate_key_tie_break doc_store _ _ Htr).
Defined.

(** ** Containment and retrieval *)

(** X5. In [ElasConf], [key in el] is true exactly when [el[key]] returns
    a value.  In [ElasTag], [key in el] is true exactly when the key that
    [el[key]] resolves to is not the empty tuple; so when it is true,
    [el[key]] returns a value. *)
Theorem contains_and_getitem (st : state) (q : configuration) :
  (ElasConf.operator_in q st = true ↔
   ∃ v, (ElasConf.__getitem__ q st).1 = Ok v) ∧
  (ElasTag.operator_in q st = true ↔
   ∃ c, ElasTag.__translate_key q st = Some c ∧ c ≠ []) ∧
  (ElasTag.operator_in q st = true →
   ∃ v, (ElasTag.__getitem__ q st).1 = Ok v).
Proof.
  assert (Hget : is_Some (ElasTag.__translate_key q st) ↔
                 ∃ v, (ElasTag.__getitem__ q st).1 = Ok v).
  { split.
    - intros [c Htr].
      pose proof Htr as (Hc & _)%translate_key_Some.
      apply dict_getitem_is_Some in Hc as [v Hv].
      exists v. apply getitem_Ok. eauto.
    - intros [v (c & Htr & _)%getitem_Ok]. by eexists. }
  assert (Hin : ElasTag.operator_in q st = true ↔
                ∃ c, ElasTag.__translate_key q st = Some c ∧ c ≠ []).
  { unfold ElasTag.operator_in, ElasTag.__contains__, ElasTag.truth_value.
    destruct (ElasTag.__translate_key q st) as [c|].
    - rewrite negb_true_iff, Nat.eqb_neq. split.
      + intros Hlen. exists c. split; [done|]. by intros ->.
      + intros (c' & [= <-] & Hne). by destruct c.
    - split; [done|]. by intros (c & ? & _). }
  split_and!.
  - change (ElasConf.__getitem__ q st) with (ElasTag.__getitem__ q st).
    rewrite <- Hget. unfold ElasConf.operator_in, ElasConf.__contains__.
    change (ElasConf.__translate_key q st)
      with (ElasTag.__translate_key q st).
    destruct (ElasTag.__translate_key q st).
    + split; [by eexists|done].
    + split; [done|by intros [? ?]].
  - exact Hin.
  - intros (c & Htr & _)%Hin. apply Hget. by eexists.
Qed.

(** X6. A query that is itself a stored key is contained elastically, for
    [ElasTag]'s [in] provided the query is not the empty configuration, and
    for [ElasConf] always. *)
Theorem exact_implies_elastic (st : state) (q : configuration) :
  ElasTag.haskey q st = true →
  (q ≠ ∅ → ElasTag.operator_in q st = true) ∧
  ElasConf.operator_in q st = true ∧
  ElasConf.haskey q st = true.
Proof.
  unfold ElasTag.haskey, dict_contains. intros Hin%bool_decide_eq_true.
  split_and!.
  - intros Hne. apply ElasTag_operator_in_iff.
    exists (ElasTag.__confid q). split_and!; [done..|].
    intros Hnil. apply Hne.
    apply (inj ElasTag.__confid). rewrite Hnil. reflexivity.
  - apply ElasConf_operator_in_iff. by exists (ElasTag.__confid q).
  - apply ElasConf_operator_in_iff. by exists (ElasTag.__confid q).
Qed.

Lemma exact_implies_elastic_witness :
  ElasTag.haskey en_construction doc_store = true ∧
  ElasTag.operator_in en_construction doc_store = true.
Proof.
  assert (Hk : ElasTag.haskey en_construction doc_store = true)
    by reflexivity.
  split; [exact Hk|].
  apply (proj1 (exact_implies_elastic doc_store en_construction Hk)).
  by_compute.
Defined.

(** ** More on [append] and [add] *)



(** X8. [add] of a list or a set always raises the [TypeError] of
    hashing, whatever the entry holds, and leaves the state as it was. *)
Theorem add_unhashable_value (st : state) (k : configuration) (l : loc) :
  ElasTag.add k (Ref l) st = (Raise TypeError_unhashable, st).
Proof.
  unfold ElasTag.add, ElasTag.new_set.
  destruct (dict_contains _ _) eqn:Hc; [|done].
  apply dict_contains_true in Hc as [prev ->].
  destruct (as_set (objects st) prev) as [[l' s]|]; [done|].
  by destruct prev.
Qed.

(** X9. When the entry already holds a list, [append] returns that very
    object.  Otherwise the list it returns and the list it stores are two
    new, distinct objects: a later [append] changes the stored one and not
    the one returned. *)
Theorem append_returned_object (st : state) (key : configuration)
    (val : value) :
  let config := ElasTag.__confid key in
  let res := ElasTag.append key val st in
  ∃ r s, res.1 = Ok (Ref r) ∧
         dict_getitem config (entries res.2) = Some (Ref s) ∧
         match stored_value st config with
         | Some (ListOf _) =>
             r = s ∧ dict_getitem config (entries st) = Some (Ref s)
         | _ =>
             r ≠ s ∧ objects st !! r = None ∧ objects st !! s = None ∧
             objects res.2 !! r = objects res.2 !! s
         end.
Proof.
  intros config res. subst res.
  unfold ElasTag.append, stored_value, alloc. fold config.
  assert (Hfresh : ∀ o,
    let l1 := fresh (dom (objects st)) in
    let l2 := fresh (dom (<[l1 := o]> (objects st))) in
    l2 ≠ l1 ∧ objects st !! l2 = None ∧ objects st !! l1 = None ∧
    <[l2 := o]> (<[l1 := o]> (objects st)) !! l2
    = <[l2 := o]> (<[l1 := o]> (objects st)) !! l1).
  { intros o l1 l2. assert (l2 ≠ l1) as Hne by apply fresh_insert_ne.
    split_and!; [done| |apply fresh_lookup|].
    - pose proof (fresh_lookup (<[l1 := o]> (objects st))) as Hl2.
      fold l2 in Hl2. by rewrite lookup_insert_ne in Hl2.
    - by rewrite lookup_insert_eq, lookup_insert_ne, lookup_insert_eq. }
  destruct (dict_contains config (entries st)) eqn:Hc.
  - apply dict_contains_true in Hc as [prev Hprev]. rewrite Hprev.
    destruct (as_list (objects st) prev) as [[l xs]|] eqn:Hl.
    + apply as_list_Some in Hl as [-> Hl]. simpl. rewrite Hprev, Hl.
      by exists l, l.
    + pose proof (as_list_None_shape _ _ Hl) as Hns.
      eexists _, _. cbn [fst snd entries objects].
      rewrite dict_getitem_setitem_eq. split_and!; [done..|].
      cbn [fmap option_fmap option_map].
      destruct (shape (objects st) prev) as [?|xs|?];
        [apply Hfresh|by destruct (Hns xs)|apply Hfresh].
  - apply dict_contains_false in Hc. rewrite Hc.
    eexists _, _. cbn [fst snd entries objects].
    rewrite dict_getitem_setitem_eq. split_and!; [done..|].
    apply Hfresh.
Qed.

Lemma fresh_twice (h : heap) (o : object) :
  let l1 := fresh (dom h) in
  let l2 := fresh (dom (<[l1 := o]> h)) in
  l2 ≠ l1 ∧ h !! l2 = None ∧ h !! l1 = None ∧
  <[l2 := o]> (<[l1 := o]> h) !! l2 = Some o ∧
  <[l2 := o]> (<[l1 := o]> h) !! l1 = Some o.
Proof.
  intros l1 l2. assert (l2 ≠ l1) as Hne by apply fresh_insert_ne.
  split_and!; [done| |apply fresh_lookup|apply lookup_insert_eq|].
  - pose proof (fresh_lookup (<[l1 := o]> h)) as Hl2.
    fold l2 in Hl2. by rewrite lookup_insert_ne in Hl2.
  - by rewrite lookup_insert_ne, lookup_insert_eq.
Qed.

(** X10. [add] of a string to an entry that already holds a set returns
    that very object.  When there is no entry, or the entry holds a string,
    the set it returns and the set it stores are two new, distinct objects
    with the same elements. *)
Theorem add_returned_object (st : state) (key : configuration) (x : string) :
  let config := ElasTag.__confid key in
  let res := ElasTag.add key (Str x) st in
  match stored_value st config with
  | Some (SetOf _) =>
      ∃ s, res.1 = Ok (Ref s) ∧
           dict_getitem config (entries st) = Some (Ref s) ∧
           dict_getitem config (entries res.2) = Some (Ref s)
  | None | Some (Single (Str _)) =>
      ∃ r s o, res.1 = Ok (Ref r) ∧
               dict_getitem config (entries res.2) = Some (Ref s) ∧
               r ≠ s ∧ objects st !! r = None ∧ objects st !! s = None ∧
               objects res.2 !! r = Some o ∧ objects res.2 !! s = Some o
  | _ => True
  end.
Proof.
  intros config res. subst res.
  unfold ElasTag.add, ElasTag.new_set, stored_value, alloc. fold config.
  destruct (dict_contains config (entries st)) eqn:Hc.
  - apply dict_contains_true in Hc as [prev Hprev]. rewrite Hprev.
    cbn [fmap option_fmap option_map].
    destruct (as_set (objects st) prev) as [[l s]|] eqn:Hs.
    + apply as_set_Some in Hs as [-> Hs]. simpl shape. rewrite Hs.
      exists l. simpl. by rewrite ?Hprev.
    + pose proof (as_set_None_shape _ _ Hs) as Hns.
      destruct prev as [p|l]; simpl shape.
      * cbn [set_of_values fst snd entries objects].
        destruct (fresh_twice (objects st) (PySet ({[p]} ∪ ({[x]} ∪ ∅))))
          as (H1 & H2 & H3 & H4 & H5).
        eexists _, _, _. rewrite dict_getitem_setitem_eq.
        split_and!; [done|done|exact H1|exact H2|exact H3|exact H4|exact H5].
      * simpl in Hns. destruct (objects st !! l) as [[xs|s]|];
          [done|by destruct (Hns s)|done].
  - apply dict_contains_false in Hc. rewrite Hc.
    cbn [fmap option_fmap option_map set_of_values fst snd entries objects].
    destruct (fresh_twice (objects st) (PySet ({[x]} ∪ ∅)))
      as (H1 & H2 & H3 & H4 & H5).
    eexists _, _, _. rewrite dict_getitem_setitem_eq.
    split_and!; [done|done|exact H1|exact H2|exact H3|exact H4|exact H5].
Qed.

(** ** More on [all] and [bag] *)

(** X11. [all(key)] never raises and changes neither an entry nor an
    object: it returns a new list holding, for each stored key in iteration
    order that has all the pairs of the query, the elements of the entry's
    list, or else the entry's value as one element.  With no key, or with
    [{}], every entry contributes. *)
Theorem all_list_result (st : state) (key : option configuration) :
  let config := pairs (ElasTag.__confid (default ∅ key)) in
  let res := ElasTag.all key false st in
  ∃ l, res.1 = Ok (Ref l) ∧
       objects st !! l = None ∧
       entries res.2 = entries st ∧
       (∀ l' o, objects st !! l' = Some o → objects res.2 !! l' = Some o) ∧
       objects res.2 !! l
       = Some (PyList (concat (contribution st <$>
                                 filter (λ c, config ⊆ pairs c)
                                        (dict_keys (entries st))))) ∧
       (default ∅ key = ∅ →
        objects res.2 !! l
        = Some (PyList (concat (contribution st <$> dict_keys (entries st))))).
Proof.
  intros config res. subst res. rewrite all_list_contents. fold config.
  exists (fresh (dom (objects st))). cbn [fst snd entries objects].
  split_and!; [done|apply fresh_lookup|done| |apply lookup_insert_eq|].
  - intros l' o Hl'. rewrite lookup_insert_ne; [done|].
    intros <-. by rewrite fresh_lookup in Hl'.
  - intros Hempty. rewrite lookup_insert_eq. subst config. rewrite Hempty.
    replace (filter (λ c, pairs (ElasTag.__confid ∅) ⊆ pairs c)
               (dict_keys (entries st))) with (dict_keys (entries st));
      [done|].
    induction (dict_keys (entries st)) as [|c ks IH]; [done|].
    rewrite filter_cons_True; [by rewrite <- IH|]. apply empty_subseteq.
Qed.

(** X12. A query with more pairs collects less: the list [all] returns
    for it is a sublist of the list returned for a query with fewer
    pairs. *)
Theorem all_narrower_query (st : state) (q q' : configuration) :
  q ⊆ q' →
  ∃ l l' xs xs',
    (ElasTag.all (Some q) false st).1 = Ok (Ref l) ∧
    objects (ElasTag.all (Some q) false st).2 !! l = Some (PyList xs) ∧
    (ElasTag.all (Some q') false st).1 = Ok (Ref l') ∧
    objects (ElasTag.all (Some q') false st).2 !! l' = Some (PyList xs') ∧
    sublist xs' xs.
Proof.
  intros Hq%pairs_confid_subseteq. rewrite !all_list_contents.
  eexists _, _, _, _. cbn [fst snd entries objects default from_option id].
  rewrite !lookup_insert_eq. split_and!; [done..|].
  induction (dict_keys (entries st)) as [|c ks IH]; [done|].
  rewrite !filter_cons.
  destruct (decide (pairs (ElasTag.__confid q') ⊆ pairs c)) as [Hc'|Hc'],
    (decide (pairs (ElasTag.__confid q) ⊆ pairs c)) as [Hc|Hc].
  - rewrite !fmap_cons. simpl. by apply sublist_app.
  - destruct Hc. by etrans.
  - rewrite fmap_cons. simpl. by apply sublist_inserts_l.
  - done.
Qed.

Lemma all_narrower_query_witness :
  lang_en ⊆ en_construction ∧
  ∃ l l' xs xs',
    (ElasTag.all (Some lang_en) false doc_store).1 = Ok (Ref l) ∧
    objects (ElasTag.all (Some lang_en) false doc_store).2 !! l
      = Some (PyList xs) ∧
    (ElasTag.all (Some en_construction) false doc_store).1 = Ok (Ref l') ∧
    objects (ElasTag.all (Some en_construction) false doc_store).2 !! l'
      = Some (PyList xs') ∧
    sublist xs' xs.
Proof.
  assert (Hsub : lang_en ⊆ en_construction) by by_compute.
  split; [exact Hsub|].
  apply (all_narrower_query doc_store lang_en en_construction Hsub).
Defined.

Lemma set_of_values_Raise xs e :
  set_of_values xs = Raise e → e = TypeError_unhashable.
Proof.
  induction xs as [|[x|l] xs IH]; simpl; [done| |by intros [= <-]].
  destruct (set_of_values xs); [done|]. intros [= <-]. by apply IH.
Qed.

Lemma entry_strings_Raise st c e :
  entry_strings st c = Raise e → e = TypeError_unhashable.
Proof.
  unfold entry_strings. destruct (dict_getitem c (entries st)); [|done].
  destruct (shape _ _) as [[x|l]|xs|s]; try done.
  - by intros [= <-].
  - apply set_of_values_Raise.
Qed.

(** One turn of the loop of [bag] on a stored key. *)
Lemma all_set_step_entry config st out c :
  c ∈ dict_keys (entries st) →
  ElasTag.all_set_step config st (Ok out) c
  = if decide (config ⊆ pairs c)
    then match entry_strings st c with
         | Ok s => Ok (out ∪ s)
         | Raise e => Raise e
         end
    else Ok out.
Proof.
  intros [val Hval]%dict_getitem_is_Some.
  unfold ElasTag.all_set_step, entry_strings. rewrite Hval.
  destruct (decide (config ⊆ pairs c)) as [Hc|Hc].
  - rewrite bool_decide_eq_true_2 by done.
    destruct val as [x|l]; simpl; [done|].
    by destruct (objects st !! l) as [[xs|s]|].
  - by rewrite bool_decide_eq_false_2.
Qed.

Lemma all_set_loop_Raise config st e ks :
  foldl (ElasTag.all_set_step config st) (Raise e) ks = Raise e.
Proof. by induction ks. Qed.

Lemma all_set_loop config st ks out :
  Forall (λ c, c ∈ dict_keys (entries st)) ks →
  (Forall (λ c, ∃ s, entry_strings st c = Ok s)
          (filter (λ c, config ⊆ pairs c) ks) →
   ∃ S, foldl (ElasTag.all_set_step config st) (Ok out) ks = Ok S ∧
        ∀ x, x ∈ S ↔
             x ∈ out ∨
             ∃ c s, c ∈ filter (λ c, config ⊆ pairs c) ks ∧
                    entry_strings st c = Ok s ∧ x ∈ s) ∧
  (¬ Forall (λ c, ∃ s, entry_strings st c = Ok s)
            (filter (λ c, config ⊆ pairs c) ks) →
   foldl (ElasTag.all_set_step config st) (Ok out) ks
   = Raise TypeError_unhashable).
Proof.
  intros Hks. revert out.
  induction Hks as [|c ks Hc Hks IH]; intros out.
  { split.
    - intros _. exists out. split; [done|]. intros x. split; [by left|].
      intros [Hx|(c & s & Hin & _)]; [done|]. by apply elem_of_nil in Hin.
    - intros Hn. destruct Hn. constructor. }
  cbn [foldl]. rewrite all_set_step_entry by done. rewrite filter_cons.
  destruct (decide (config ⊆ pairs c)) as [Hq|Hq]; [|apply IH].
  destruct (entry_strings st c) as [s|e] eqn:Hs.
  - destruct (IH (out ∪ s)) as [IHok IHraise]. split.
    + intros [_ Hall]%Forall_cons.
      destruct (IHok Hall) as (S & HS & Hmem). exists S. split; [done|].
      intros x. rewrite Hmem, elem_of_union. split.
      * intros [[Hx|Hx]|(c' & s' & Hin & Hs' & Hx)]; [by left|right..].
        -- exists c, s. split; [by left|done].
        -- exists c', s'. split; [by right|done].
      * intros [Hx|(c' & s' & Hin & Hs' & Hx)]; [left; by left|].
        apply elem_of_cons in Hin as [->|Hin].
        -- left; right. congruence.
        -- right. by exists c', s'.
    + intros Hn. apply IHraise. intros Hall. apply Hn.
      constructor; [by eexists|done].
  - rewrite (entry_strings_Raise _ _ _ Hs) in *. split.
    + intros [[s Hs'] _]%Forall_cons. congruence.
    + intros _. apply all_set_loop_Raise.
Qed.

(** X13. [bag(key)] looks at the stored keys that have all the pairs of
    the query.  When each of their entries holds a set, a list of strings
    or a string, it returns a new set whose elements are exactly the
    strings those entries hold, and changes nothing else.  Otherwise, that
    is when one of them holds a list with a list or set inside, it raises
    the [TypeError] of hashing and leaves the state as it was. *)
Theorem bag_elements (st : state) (key : option configuration) :
  let config := pairs (ElasTag.__confid (default ∅ key)) in
  let qualifying := filter (λ c, config ⊆ pairs c) (dict_keys (entries st)) in
  let hashable := Forall (λ c, ∃ s, entry_strings st c = Ok s) qualifying in
  (hashable →
   ∃ b S,
     ElasTag.bag key st
     = (Ok (Ref b), State (entries st) (<[b := PySet S]> (objects st))) ∧
     objects st !! b = None ∧
     ∀ x, x ∈ S ↔ ∃ c s, c ∈ qualifying ∧ entry_strings st c = Ok s ∧ x ∈ s) ∧
  (¬ hashable → ElasTag.bag key st = (Raise TypeError_unhashable, st)).
Proof.
  intros config qualifying hashable.
  assert (Hks : Forall (λ c, c ∈ dict_keys (entries st))
                       (dict_keys (entries st))) by by apply Forall_forall.
  destruct (all_set_loop config st _ ∅ Hks) as [Hok Hraise].
  unfold ElasTag.bag, ElasTag.all. fold config. split.
  - intros Hh. destruct (Hok Hh) as (S & -> & Hmem).
    exists (fresh (dom (objects st))), S.
    split_and!; [done|apply fresh_lookup|].
    intros x. rewrite Hmem. split; [|by right].
    intros [Hx|Hx]; [|done]. by apply not_elem_of_empty in Hx.
  - intros Hn. by rewrite (Hraise Hn).
Qed.

Lemma bag_elements_witness :
  ∃ b S,
    ElasTag.bag (Some lang_es) es_list_store
    = (Ok (Ref b),
       State (entries es_list_store)
             (<[b := PySet S]> (objects es_list_store))) ∧
    objects es_list_store !! b = None.
Proof.
  destruct (proj1 (bag_elements es_list_store (Some lang_es)))
    as (b & S & Hbag & Hb & _).
  { apply Forall_forall. intros c [_ Hc]%list_elem_of_filter.
    assert (Hk : dict_keys (entries es_list_store) = [[("lang", "es")]])
      by (vm_compute; reflexivity).
    rewrite Hk in Hc. apply list_elem_of_singleton in Hc as ->.
    exists {["a"]}. vm_compute. reflexivity. }
  exists b, S. split; [exact Hbag|exact Hb].
Defined.

(** ** How the operations compose *)

(** X14. The mutators keep the two invariants of a store: after
    [el[K] = V], [append(K, V)] or [add(K, V)] with a string or an existing
    object [V], every key is still a tuple built by [__confid] and every
    reference held by an entry still points to an object. *)
Theorem mutators_keep_invariants (st : state) (K : configuration) (V : value) :
  store_wf st → store_closed st → allocated (objects st) V →
  (store_wf (ElasTag.__setitem__ K V st) ∧
   store_closed (ElasTag.__setitem__ K V st)) ∧
  (store_wf (ElasTag.append K V st).2 ∧
   store_closed (ElasTag.append K V st).2) ∧
  (store_wf (ElasTag.add K V st).2 ∧
   store_closed (ElasTag.add K V st).2).
Proof.
  intros Hwf Hcl HV. split_and!.
  - by apply store_wf_setitem.
  - by apply store_closed_setitem.
  - by apply store_wf_append.
  - by apply store_closed_append.
  - by apply store_wf_add.
  - by apply store_closed_add.
Qed.

Lemma mutators_keep_invariants_witness :
  store_wf es_list_store ∧ store_closed es_list_store ∧
  allocated (objects es_list_store) (Ref 1%positive) ∧
  store_wf (ElasTag.append lang_en (Ref 1%positive) es_list_store).2 ∧
  store_closed (ElasTag.append lang_en (Ref 1%positive) es_list_store).2.
Proof.
  assert (Hwf : store_wf es_list_store) by by_compute.
  assert (Hcl : store_closed es_list_store) by by_compute.
  assert (HV : allocated (objects es_list_store) (Ref 1%positive)) by by_compute.
  split_and!; [exact Hwf|exact Hcl|exact HV|..];
    apply (mutators_keep_invariants es_list_store lang_en (Ref 1%positive) Hwf Hcl HV).
Defined.

Lemma getitem_exact st K v :
  store_wf st →
  dict_getitem (ElasTag.__confid K) (entries st) = Some v →
  (ElasTag.__getitem__ K st).1 = Ok v.
Proof.
  intros Hwf Hv. apply getitem_Ok. exists (ElasTag.__confid K).
  split; [|done]. apply translate_key_exact; [done|].
  apply dict_getitem_is_Some. by eexists.
Qed.

Lemma append_stored_list st key val :
  ∃ l ys,
    dict_getitem (ElasTag.__confid key) (entries (ElasTag.append key val st).2)
    = Some (Ref l) ∧
    objects (ElasTag.append key val st).2 !! l = Some (PyList ys) ∧
    last ys = Some val.
Proof.
  unfold ElasTag.append, alloc.
  destruct (dict_contains _ _) eqn:Hc.
  - apply dict_contains_true in Hc as [prev Hprev]. rewrite Hprev.
    destruct (as_list (objects st) prev) as [[l xs]|] eqn:Hl.
    + apply as_list_Some in Hl as [-> Hl]. cbn [fst snd entries objects].
      exists l, (xs ++ [val]).
      rewrite lookup_insert_eq, last_snoc. by split_and!.
    + cbn [fst snd entries objects]. eexists _, [prev; val].
      rewrite dict_getitem_setitem_eq. split_and!; [done| |done].
      apply (fresh_twice (objects st) (PyList [prev; val])).
  - cbn [fst snd entries objects]. eexists _, [val].
    rewrite dict_getitem_setitem_eq. split_and!; [done| |done].
    apply (fresh_twice (objects st) (PyList [val])).
Qed.

Lemma shape_SetOf h v s :
  shape h v = SetOf s → ∃ l, v = Ref l ∧ h !! l = Some (PySet s).
Proof.
  destruct v as [x|l]; simpl; [done|].
  destruct (h !! l) as [[xs|s']|] eqn:Hl; try done.
  intros [= ->]. exists l. by split.
Qed.

(** X15. [el.append(K, V)] followed by [el[K]] returns a list whose last
    element is [V], the one the entry under K holds. *)
Theorem append_then_get (st : state) (K : configuration) (V : value) :
  store_wf st →
  let st' := (ElasTag.append K V st).2 in
  ∃ l ys,
    (ElasTag.__getitem__ K st').1 = Ok (Ref l) ∧
    dict_getitem (ElasTag.__confid K) (entries st') = Some (Ref l) ∧
    objects st' !! l = Some (PyList ys) ∧
    last ys = Some V.
Proof.
  intros Hwf st'.
  destruct (append_stored_list st K V) as (l & ys & Hget & Hl & Hlast).
  exists l, ys. split_and!; [|done..].
  apply getitem_exact; [by apply store_wf_append|done].
Qed.

Lemma append_then_get_witness :
  store_wf doc_store ∧
  ∃ l ys,
    (ElasTag.__getitem__ en_retail
       (ElasTag.append en_retail (Str "en-retail") doc_store).2).1
    = Ok (Ref l) ∧
    objects (ElasTag.append en_retail (Str "en-retail") doc_store).2 !! l
    = Some (PyList ys) ∧
    last ys = Some (Str "en-retail").
Proof.
  assert (Hwf : store_wf doc_store) by by_compute.
  split; [exact Hwf|].
  destruct (append_then_get doc_store en_retail (Str "en-retail") Hwf)
    as (l & ys & Hget & _ & Hl & Hlast).
  exists l, ys. split_and!; [exact Hget|exact Hl|exact Hlast].
Defined.

(** X16. When [el.add(K, x)] of a string returns, [el[K]] then returns a
    set that has [x] among its elements, the one the entry under K
    holds. *)
Theorem add_then_get (st : state) (K : configuration) (x : string)
    (r : value) :
  store_wf st →
  (ElasTag.add K (Str x) st).1 = Ok r →
  let st' := (ElasTag.add K (Str x) st).2 in
  ∃ l S,
    (ElasTag.__getitem__ K st').1 = Ok (Ref l) ∧
    dict_getitem (ElasTag.__confid K) (entries st') = Some (Ref l) ∧
    objects st' !! l = Some (PySet S) ∧
    x ∈ S.
Proof.
  intros Hwf Hr st'.
  assert (∃ S, stored_value st' (ElasTag.__confid K) = Some (SetOf S) ∧ x ∈ S)
    as (S & HS & Hx).
  { pose proof (add_string_cases st K x) as Hadd. cbv zeta in Hadd.
    destruct (stored_value st (ElasTag.__confid K)) as [[[p|l]|xs|s]|].
    - destruct Hadd as (_ & _ & _ & Hst). eexists. split; [exact Hst|].
      set_solver.
    - rewrite Hadd in Hr. done.
    - rewrite Hadd in Hr. done.
    - destruct Hadd as (_ & _ & _ & Hst). eexists. split; [exact Hst|].
      set_solver.
    - destruct Hadd as (_ & _ & _ & Hst). eexists. split; [exact Hst|].
      set_solver. }
  unfold stored_value in HS.
  destruct (dict_getitem (ElasTag.__confid K) (entries st')) as [v|] eqn:Hv;
    [|done].
  simpl in HS. injection HS as HS.
  apply shape_SetOf in HS as (l & -> & Hl).
  exists l, S. split_and!; [|done..].
  apply getitem_exact; [by apply store_wf_add|done].
Qed.

Lemma add_then_get_witness :
  store_wf doc_store ∧
  ∃ l S,
    (ElasTag.__getitem__ lang_es
       (ElasTag.add lang_es (Str "es1") doc_store).2).1 = Ok (Ref l) ∧
    objects (ElasTag.add lang_es (Str "es1") doc_store).2 !! l
    = Some (PySet S) ∧
    "es1" ∈ S.
Proof.
  assert (Hwf : store_wf doc_store) by by_compute.
  assert (Hr : (ElasTag.add lang_es (Str "es1") doc_store).1
               = Ok (Ref 2%positive)) by (vm_compute; reflexivity).
  split; [exact Hwf|].
  destruct (add_then_get doc_store lang_es "es1" _ Hwf Hr)
    as (l & S & Hget & _ & Hl & Hx).
  exists l, S. split_and!; [exact Hget|exact Hl|exact Hx].
Defined.

Lemma dict_setitem_setitem k v1 v2 d :
  dict_setitem k v2 (dict_setitem k v1 d) = dict_setitem k v2 d.
Proof.
  induction d as [|[k' v'] d IH]; simpl.
  - by rewrite decide_True.
  - case_decide as Hk; simpl.
    + by rewrite decide_True.
    + rewrite decide_False by done. by rewrite IH.
Qed.

Lemma length_dict_setitem k v d :
  length (dict_setitem k v d)
  = if dict_contains k d then length d else S (length d).
Proof.
  unfold dict_contains, dict_keys.
  induction d as [|[k' v'] d IH]; simpl; [done|].
  destruct (decide (k' = k)) as [->|Hk]; simpl.
  - rewrite bool_decide_eq_true_2; [done|]. by left.
  - rewrite IH. destruct (decide (k ∈ d.*1)) as [Hin|Hin].
    + rewrite !bool_decide_eq_true_2; [done|by right|done].
    + rewrite !bool_decide_eq_false_2; [done| |done].
      intros [->|?]%elem_of_cons; done.
Qed.

(** X17. Writing twice under one configuration is writing the second
    value: [el[K] = V1; el[K] = V2] ends in the state that [el[K] = V2]
    alone ends in.  A write adds one entry when K was not a stored key and
    none when it was. *)
Theorem setitem_last_write_wins (st : state) (K : configuration)
    (V1 V2 : value) :
  ElasTag.__setitem__ K V2 (ElasTag.__setitem__ K V1 st)
  = ElasTag.__setitem__ K V2 st ∧
  length (entries (ElasTag.__setitem__ K V1 st))
  = (if ElasTag.haskey K st then length (entries st)
     else S (length (entries st))) ∧
  ElasConf.__setitem__ K V1 st = ElasTag.__setitem__ K V1 st.
Proof.
  unfold ElasTag.__setitem__, ElasTag.haskey. simpl. split_and!.
  - by rewrite dict_setitem_setitem.
  - apply length_dict_setitem.
  - reflexivity.
Qed.

Lemma haskey_iff K st :
  ElasTag.haskey K st = true ↔
  is_Some (dict_getitem (ElasTag.__confid K) (entries st)).
Proof. apply dict_contains_true. Qed.

Lemma haskey_changes_at_most K K' st st' :
  changes_at_most (ElasTag.__confid K) st st' →
  ElasTag.__confid K' ≠ ElasTag.__confid K →
  ElasTag.haskey K' st' = ElasTag.haskey K' st.
Proof.
  intros [Hd _] Hne. apply eq_true_iff_eq.
  by rewrite !haskey_iff, Hd.
Qed.

(** X18. After [el[K] = V] and after [append(K, V)], and after
    [add(K, V)] when it returns, K is a stored key.  No mutator removes a
    key, and none adds a key other than K. *)
Theorem mutators_and_keys (st : state) (K K' : configuration) (V : value) :
  let st_set := ElasTag.__setitem__ K V st in
  let st_append := (ElasTag.append K V st).2 in
  let st_add := (ElasTag.add K V st).2 in
  ElasTag.haskey K st_set = true ∧
  ElasTag.haskey K st_append = true ∧
  (∀ r, (ElasTag.add K V st).1 = Ok r → ElasTag.haskey K st_add = true) ∧
  (ElasTag.haskey K' st = true →
   ElasTag.haskey K' st_set = true ∧
   ElasTag.haskey K' st_append = true ∧
   ElasTag.haskey K' st_add = true) ∧
  (K' ≠ K →
   ElasTag.haskey K' st_set = ElasTag.haskey K' st ∧
   ElasTag.haskey K' st_append = ElasTag.haskey K' st ∧
   ElasTag.haskey K' st_add = ElasTag.haskey K' st).
Proof.
  intros st_set st_append st_add.
  assert (Hset : ElasTag.haskey K st_set = true).
  { apply haskey_iff. subst st_set. simpl.
    rewrite dict_getitem_setitem_eq. by eexists. }
  assert (Happ : ElasTag.haskey K st_append = true).
  { apply haskey_iff. subst st_append.
    destruct (append_stored_list st K V) as (l & ys & -> & _). by eexists. }
  assert (Hadd : ElasTag.haskey K st = true ∨
                 (∃ r, (ElasTag.add K V st).1 = Ok r) →
                 ElasTag.haskey K st_add = true).
  { subst st_add. unfold ElasTag.add, ElasTag.new_set, alloc.
    destruct (dict_contains _ _) eqn:Hc.
    - pose proof Hc as [prev Hprev]%dict_contains_true. rewrite Hprev.
      intros _. apply haskey_iff.
      destruct (as_set _ _) as [[l s]|].
      + destruct V; simpl; rewrite Hprev; by eexists.
      + destruct (set_of_values [prev; V]); simpl.
        * rewrite dict_getitem_setitem_eq. by eexists.
        * rewrite Hprev. by eexists.
    - intros [Hk|[r Hr]].
      + unfold ElasTag.haskey in Hk. congruence.
      + apply haskey_iff. destruct (set_of_values [V]); simpl in *; [|done].
        rewrite dict_getitem_setitem_eq. by eexists. }
  assert (Hother : ElasTag.__confid K' ≠ ElasTag.__confid K →
                   ElasTag.haskey K' st_set = ElasTag.haskey K' st ∧
                   ElasTag.haskey K' st_append = ElasTag.haskey K' st ∧
                   ElasTag.haskey K' st_add = ElasTag.haskey K' st).
  { intros Hne. split_and!;
      (eapply haskey_changes_at_most; [|exact Hne]).
    - apply setitem_changes_at_most.
    - apply append_changes_at_most.
    - apply add_changes_at_most. }
  split_and!; [done|done|..].
  - intros r Hr. apply Hadd. right. by eexists.
  - intros Hk'.
    destruct (decide (ElasTag.__confid K' = ElasTag.__confid K)) as [Heq|Hne].
    + apply (inj ElasTag.__confid) in Heq as ->.
      split_and!; [done..|]. apply Hadd. by left.
    + destruct (Hother Hne) as (-> & -> & ->). done.
  - intros Hne. apply Hother. intros Heq. apply Hne.
    by apply (inj ElasTag.__confid).
Qed.
